(** * Packet decoding of the hybrid-engine ground-support UI

    A shallow embedding of [src/packet_spec.py]: the header decoder
    [parse_packet_header], the payload length table
    [packet_message_bytes_length], the message decoder
    [parse_packet_message] and the legacy serial frame decoder
    [parse_serial_packet], followed by the properties of the
    specification that concern them.

    Python values are embedded as follows: [bytes] is [list byte], [int] is
    [Z], [float] is the binary64 [float] of the kernel, [str] is [string],
    a set of ints is [gset Z].  A call either returns or raises, which is
    the [result] type; a function whose body can run off its end without a
    [return] yields [Ok None]. *)

From Stdlib Require Import ZArith List String Ascii Lia Floats.
From Stdlib.Strings Require Import Byte.
From stdpp Require Import base option list gmap strings pretty.
Import ListNotations.

Local Open Scope Z_scope.
Local Open Scope string_scope.

(** ** Exceptions and results *)

(** The exception classes the decoders can raise.  [ValueError] is what
    an [Enum] class raises when called on a value that is not one of its
    members (the specification's [InvalidEnumValue]); [struct_error] is
    [struct.error], raised on a buffer of the wrong size (the
    specification's [MalformedPayload]). *)
Inductive exn : Set :=
| ValueError
| struct_error
| AttributeError
| TypeError
| IndexError.

Inductive result (A : Type) : Type :=
| Ok (a : A)
| Raise (e : exn).
Arguments Ok {A} a.
Arguments Raise {A} e.

#[global] Instance result_ret : MRet result := fun A a => Ok a.
#[global] Instance result_bind : MBind result := fun A B f m =>
  match m with
  | Ok a => f a
  | Raise e => Raise e
  end.

(** ** The [struct] module, for the format strings the source uses *)

Definition byte_val (b : byte) : Z := Z.of_N (Byte.to_N b).

Module struct.

(** Format characters: [B] unsigned char, [H] unsigned short, [I]
    unsigned int.  With the [<] prefix the sizes are the standard ones
    and there is no padding. *)
Inductive code : Set := B | H | I.

Definition size (c : code) : nat :=
  match c with B => 1 | H => 2 | I => 4 end%nat.

Definition code_of (a : ascii) : option code :=
  if Ascii.eqb a "B" then Some B
  else if Ascii.eqb a "H" then Some H
  else if Ascii.eqb a "I" then Some I
  else None.

Fixpoint codes_of (s : string) : option (list code) :=
  match s with
  | EmptyString => Some []
  | String a s' =>
      match code_of a, codes_of s' with
      | Some c, Some cs => Some (c :: cs)
      | _, _ => None
      end
  end.

(** Only little-endian formats ([<...]) occur in the source. *)
Definition parse_format (fmt : string) : option (list code) :=
  match fmt with
  | String "<" s => codes_of s
  | _ => None
  end.

Definition calcsize (cs : list code) : nat :=
  fold_right (fun c n => (size c + n)%nat) 0%nat cs.

(** Little-endian unsigned integer held by a run of bytes. *)
Fixpoint le_uint (bs : list byte) : Z :=
  match bs with
  | [] => 0
  | b :: bs' => byte_val b + 256 * le_uint bs'
  end.

Fixpoint fields (cs : list code) (bs : list byte) : list Z :=
  match cs with
  | [] => []
  | c :: cs' => le_uint (firstn (size c) bs) :: fields cs' (skipn (size c) bs)
  end.

(** [struct.unpack(fmt, buffer)]: the buffer must have exactly the size
    of the format. *)
Definition unpack (fmt : string) (buffer : list byte) : result (list Z) :=
  match parse_format fmt with
  | Some cs =>
      if Nat.eqb (length buffer) (calcsize cs) then Ok (fields cs buffer)
      else Raise struct_error
  | None => Raise struct_error
  end.

(** [struct.unpack_from(fmt, buffer, offset)]: the buffer must hold at
    least the size of the format from [offset] on. *)
Definition unpack_from (fmt : string) (buffer : list byte) (offset : nat)
  : result (list Z) :=
  match parse_format fmt with
  | Some cs =>
      if Nat.leb offset (length buffer)
         && Nat.leb (calcsize cs) (length buffer - offset)
      then Ok (fields cs (skipn offset buffer))
      else Raise struct_error
  | None => Raise struct_error
  end.

End struct.

(** ** Enumerations *)

(** A Python [Enum] class: its members in definition order and the value
    of each.  Calling the class on a value looks the member up by value
    and raises [ValueError] when there is none. *)
Class Enum (A : Type) := { members : list A; value : A -> Z }.

Definition Enum_call (A : Type) `{Enum A} (v : Z) : result A :=
  match find (fun m => Z.eqb (value m) v) members with
  | Some m => Ok m
  | None => Raise ValueError
  end.

Inductive PacketType : Set := CONTROL | TELEMETRY.

#[global] Instance PacketType_Enum : Enum PacketType :=
  {| members := [CONTROL; TELEMETRY];
     value m := match m with CONTROL => 0 | TELEMETRY => 1 end |}.

Inductive TelemetryPacketSubType : Set :=
| TEMPERATURE | PRESSURE | MASS | ARMING_STATE | ACT_STATE
| WARNING | ACT_REQ | ACT_ACK | ARM_REQ | ARM_ACK.

#[global] Instance TelemetryPacketSubType_Enum : Enum TelemetryPacketSubType :=
  {| members := [TEMPERATURE; PRESSURE; MASS; ARMING_STATE; ACT_STATE;
                 WARNING; ACT_REQ; ACT_ACK; ARM_REQ; ARM_ACK];
     value m := match m with
                | TEMPERATURE => 0 | PRESSURE => 1 | MASS => 2
                | ARMING_STATE => 3 | ACT_STATE => 4 | WARNING => 5
                | ACT_REQ => 6 | ACT_ACK => 7 | ARM_REQ => 8 | ARM_ACK => 9
                end |}.

Inductive ActuationRequestStatus : Set :=
| ACT_OK | ACT_DENIED | ACT_DNE | ACT_INV.

#[global] Instance ActuationRequestStatus_Enum : Enum ActuationRequestStatus :=
  {| members := [ACT_OK; ACT_DENIED; ACT_DNE; ACT_INV];
     value m := match m with
                | ACT_OK => 0 | ACT_DENIED => 1 | ACT_DNE => 2 | ACT_INV => 3
                end |}.

Inductive ArmingState : Set :=
| ARMED_PAD | ARMED_VALVES | ARMED_IGNITION | ARMED_DISCONNECTED | ARMED_LAUNCH.

#[global] Instance ArmingState_Enum : Enum ArmingState :=
  {| members := [ARMED_PAD; ARMED_VALVES; ARMED_IGNITION; ARMED_DISCONNECTED;
                 ARMED_LAUNCH];
     value m := match m with
                | ARMED_PAD => 0 | ARMED_VALVES => 1 | ARMED_IGNITION => 2
                | ARMED_DISCONNECTED => 3 | ARMED_LAUNCH => 4
                end |}.

Inductive Warning : Set := HIGH_PRESSURE | HIGH_TEMP.

#[global] Instance Warning_Enum : Enum Warning :=
  {| members := [HIGH_PRESSURE; HIGH_TEMP];
     value m := match m with HIGH_PRESSURE => 0 | HIGH_TEMP => 1 end |}.

Inductive ActuatorState : Set := OFF | ON.

#[global] Instance ActuatorState_Enum : Enum ActuatorState :=
  {| members := [OFF; ON];
     value m := match m with OFF => 0 | ON => 1 end |}.

Inductive AcknowledgementStatus : Set := ARM_OK | ARM_DENIED | ARM_INV.

#[global] Instance AcknowledgementStatus_Enum : Enum AcknowledgementStatus :=
  {| members := [ARM_OK; ARM_DENIED; ARM_INV];
     value m := match m with ARM_OK => 0 | ARM_DENIED => 1 | ARM_INV => 2 end |}.

(** ** Dataclasses *)

Record PacketHeader : Set :=
  { type : PacketType; sub_type : TelemetryPacketSubType }.

(** A value a sensor field can hold.  The dataclasses annotate these
    fields [int], which Python does not enforce: the stream decoder
    stores the unpacked [int], the serial decoder stores whatever the
    field of the [SerialDataPacket] holds. *)
Inductive pyval : Set :=
| Int (z : Z)
| Float (x : float)
| Str (s : string).

(** The message dataclasses, one constructor each, with the fields in the
    order of the generated [__init__] (the inherited [time_since_power]
    first).  A field has the type of what the decoders store in it: the
    control dataclasses are annotated with enumeration types, yet
    [parse_packet_message] stores the unpacked integer (or, for the
    one-field formats, the whole tuple [struct.unpack] returned). *)
Inductive PacketMessage : Set :=
| ActuationRequest (id : Z) (state : Z)
| ActuationAcknowledgement (id : Z) (status : Z)
| ArmingRequest (level : list Z)
| ArmingAcknowledgement (status : list Z)
| TemperaturePacket (time_since_power : Z) (temperature : pyval) (id : Z)
| PressurePacket (time_since_power : Z) (pressure : pyval) (id : Z)
| MassPacket (time_since_power : Z) (mass : pyval) (id : Z)
| ArmingStatePacket (time_since_power : Z) (state : ArmingState)
| ActuatorStatePacket (time_since_power : Z) (id : Z) (state : ActuatorState)
| WarningPacket (time_since_power : Z) (type : Warning).

(** The fields hold the converted readings and the valve bit string, not
    the annotated [int]. *)
Record SerialDataPacket : Set :=
  { m1 : float; m2 : float;
    p1 : float; p2 : float; p3 : float; p4 : float;
    t1 : float; t2 : float; t3 : float;
    status : string }.

(** ** Header decoder *)

Definition parse_packet_header (header_bytes : list byte) : result PacketHeader :=
  unpacked ← struct.unpack "<BB" header_bytes;
  match unpacked with
  | [packet_type; packet_sub_type] =>
      t ← Enum_call PacketType packet_type;
      s ← Enum_call TelemetryPacketSubType packet_sub_type;
      mret {| type := t; sub_type := s |}
  | _ => Raise ValueError
  end.

(** ** Payload length table *)

(** There is a case for [TELEMETRY] only, and no default case: any other
    header runs off the end of the function, which returns [None]. *)
Definition packet_message_bytes_length (header : PacketHeader) : result (option Z) :=
  match type header with
  | TELEMETRY =>
      match sub_type header with
      | TEMPERATURE | PRESSURE | MASS => Ok (Some 9)
      | ACT_STATE => Ok (Some 6)
      | ARMING_STATE | WARNING => Ok (Some 5)
      | _ => Ok None
      end
  | _ => Ok None
  end.

(** ** Message decoder *)

(** Attribute lookup on a [str] object, for the one name the source looks
    up: [str] has no attribute [message_bytes]. *)
Definition str_getattr (s : string) (name : string) : result string :=
  Raise AttributeError.

(** [struct.unpack] called with a single argument. *)
Definition unpack_one_argument (fmt : string) : result (list Z) :=
  Raise TypeError.

Definition parse_packet_message (header : PacketHeader) (message_bytes : list byte)
  : result (option PacketMessage) :=
  match type header with
  | CONTROL =>
      match sub_type header with
      | ACT_REQ =>
          (* [struct.unpack("<BB". message_bytes)]: a dot, not a comma *)
          arg ← str_getattr "<BB" "message_bytes";
          unpacked ← unpack_one_argument arg;
          match unpacked with
          | [id; state] => Ok (Some (ActuationRequest id state))
          | _ => Raise ValueError
          end
      | ACT_ACK =>
          unpacked ← struct.unpack "<BB" message_bytes;
          match unpacked with
          | [id; status] => Ok (Some (ActuationAcknowledgement id status))
          | _ => Raise ValueError
          end
      | ARM_REQ =>
          level ← struct.unpack "<B" message_bytes;
          Ok (Some (ArmingRequest level))
      | ARM_ACK =>
          status ← struct.unpack "<B" message_bytes;
          Ok (Some (ArmingAcknowledgement status))
      | _ => Ok None
      end
  | TELEMETRY =>
      match sub_type header with
      | TEMPERATURE =>
          unpacked ← struct.unpack "<IIB" message_bytes;
          match unpacked with
          | [time; temperature; id] =>
              Ok (Some (TemperaturePacket time (Int temperature) id))
          | _ => Raise ValueError
          end
      | PRESSURE =>
          unpacked ← struct.unpack "<IIB" message_bytes;
          match unpacked with
          | [time; pressure; id] =>
              Ok (Some (PressurePacket time (Int pressure) id))
          | _ => Raise ValueError
          end
      | MASS =>
          unpacked ← struct.unpack "<IIB" message_bytes;
          match unpacked with
          | [time; mass; id] => Ok (Some (MassPacket time (Int mass) id))
          | _ => Raise ValueError
          end
      | ARMING_STATE =>
          unpacked ← struct.unpack "<IB" message_bytes;
          match unpacked with
          | [time; state] =>
              st ← Enum_call ArmingState state;
              Ok (Some (ArmingStatePacket time st))
          | _ => Raise ValueError
          end
      | ACT_STATE =>
          unpacked ← struct.unpack "<IBB" message_bytes;
          match unpacked with
          | [time; id; state] =>
              st ← Enum_call ActuatorState state;
              Ok (Some (ActuatorStatePacket time id st))
          | _ => Raise ValueError
          end
      | WARNING =>
          unpacked ← struct.unpack "<IB" message_bytes;
          match unpacked with
          | [time; ty] =>
              w ← Enum_call Warning ty;
              Ok (Some (WarningPacket time w))
          | _ => Raise ValueError
          end
      | _ => Ok None
      end
  end.

(** ** Legacy serial frame decoder *)

(** Modelled from the spec: the calibration functions of
    [data_conversions.py], which is not among the sources.  Each is a pure
    transform from a raw 16-bit count to a float (specification, 4.5);
    nothing else is assumed of them. *)
Class data_conversions : Set :=
  { loadCell2Conversion : Z -> float;
    pressureConversion : Z -> float;
    thermistorConversion : Z -> float;
    thermistor2Conversion : Z -> float;
    thermocouple3Conversion : Z -> float }.

(** [float(z)], exact for every [int] below [2^53] in absolute value. *)
Definition float_of_int (z : Z) : float :=
  match z with
  | Zneg p => PrimFloat.opp (PrimFloat.of_uint63 (Uint63.of_Z (Zpos p)))
  | _ => PrimFloat.of_uint63 (Uint63.of_Z z)
  end.

(** [a / b] on two ints, for operands that convert exactly and a divisor
    that is not zero (the source divides a 16-bit count by 1000). *)
Definition truediv (a b : Z) : float :=
  PrimFloat.div (float_of_int a) (float_of_int b).

(** Binary digits of a positive number, most significant first. *)
Fixpoint bin_pos (p : positive) : string :=
  match p with
  | xH => "1"
  | xO q => bin_pos q +:+ "0"
  | xI q => bin_pos q +:+ "1"
  end.

Fixpoint zeros (k : nat) : string :=
  match k with
  | O => ""
  | S k' => String "0" (zeros k')
  end.

(** [s.zfill]-style padding on the left up to [width] characters; a
    longer string is left as it is. *)
Definition pad_left (width : nat) (s : string) : string :=
  zeros (width - String.length s) +:+ s.

(** ['{:0<width>b}'.format(n)]: [width] is a minimum, and the sign comes
    before the padding. *)
Definition format_0b (width : nat) (n : Z) : string :=
  match n with
  | Z0 => pad_left width "0"
  | Zpos p => pad_left width (bin_pos p)
  | Zneg p => String "-" (pad_left (width - 1) (bin_pos p))
  end.

(** [dataclasses.asdict]: the fields in declaration order. *)
Definition asdict (p : SerialDataPacket) : list (string * pyval) :=
  [("m1", Float (m1 p)); ("m2", Float (m2 p));
   ("p1", Float (p1 p)); ("p2", Float (p2 p));
   ("p3", Float (p3 p)); ("p4", Float (p4 p));
   ("t1", Float (t1 p)); ("t2", Float (t2 p)); ("t3", Float (t3 p));
   ("status", Str (status p))].

(** [s[-1]] *)
Fixpoint last_char (s : string) : result ascii :=
  match s with
  | EmptyString => Raise IndexError
  | String a EmptyString => Ok a
  | String _ s' => last_char s'
  end.

(** [int(c)] on a one-character string *)
Definition int_of_char (c : ascii) : result Z :=
  match Ascii.is_nat c with
  | Some n => Ok (Z.of_nat n)
  | None => Raise ValueError
  end.

(** [enumerate(s)] *)
Fixpoint enumerate_from (index : Z) (s : string) : list (Z * ascii) :=
  match s with
  | EmptyString => []
  | String a s' => (index, a) :: enumerate_from (index + 1) s'
  end.

Definition enumerate (s : string) : list (Z * ascii) := enumerate_from 0 s.

(** A [for] loop whose body can raise. *)
Fixpoint for_each {A B : Type} (body : B -> A -> result B) (l : list A) (acc : B)
  : result B :=
  match l with
  | [] => Ok acc
  | a :: l' => acc' ← body acc a; for_each body l' acc'
  end.

Definition packet_list_t : Set := list (PacketHeader * PacketMessage).

(** Body of the inner loop, over the characters of the valve string. *)
Definition valve_body (timestamp : Z) (default_open_valves : gset Z)
    (header : PacketHeader) (packet_list : packet_list_t) (item : Z * ascii)
  : packet_list_t :=
  let '(index, bit) := item in
  let state :=
    if bool_decide (index ∈ default_open_valves)
    then (if Ascii.eqb bit "0" then ON else OFF)
    else (if Ascii.eqb bit "0" then OFF else ON) in
  let message := ActuatorStatePacket timestamp index state in
  (packet_list ++ [(header, message)])%list.

(** Body of the loop over the fields of the parsed packet. *)
Definition field_body (timestamp : Z) (default_open_valves : gset Z)
    (packet_list : packet_list_t) (item : string * pyval) : result packet_list_t :=
  let '(field, val) := item in
  if String.prefix "m" field then
    let header := {| type := TELEMETRY; sub_type := MASS |} in
    c ← last_char field; n ← int_of_char c;
    Ok (packet_list ++ [(header, MassPacket timestamp val n)])%list
  else if String.prefix "p" field then
    let header := {| type := TELEMETRY; sub_type := PRESSURE |} in
    c ← last_char field; n ← int_of_char c;
    Ok (packet_list ++ [(header, PressurePacket timestamp val n)])%list
  else if String.prefix "t" field then
    let header := {| type := TELEMETRY; sub_type := TEMPERATURE |} in
    c ← last_char field; n ← int_of_char c;
    Ok (packet_list ++ [(header, TemperaturePacket timestamp val n)])%list
  else
    let header := {| type := TELEMETRY; sub_type := ACT_STATE |} in
    match val with
    | Str s =>
        Ok (fold_left (valve_body timestamp default_open_valves header)
              (enumerate s) packet_list)
    | _ => Raise TypeError
    end.

Definition parse_serial_packet {conv : data_conversions}
    (data : list byte) (timestamp : Z) (default_open_valves : gset Z)
  : result (SerialDataPacket * packet_list_t) :=
  unpacked ← struct.unpack_from "<HHHHHHHHHI" data 4;
  match unpacked with
  | [m2; m1; p1; p2; p3; p4; t1; t2; t3; status] =>
      let parsed_packet :=
        {| m1 := truediv m1 1000;
           m2 := loadCell2Conversion m2;
           p1 := pressureConversion p1;
           p2 := pressureConversion p2;
           p3 := pressureConversion p3;
           p4 := pressureConversion p4;
           t1 := thermistorConversion t1;
           t2 := thermistor2Conversion t2;
           t3 := thermocouple3Conversion t3;
           status := String.rev (format_0b 12 (status / Z.pow 2 16)) |} in
      packet_list ← for_each (field_body timestamp default_open_valves)
                      (asdict parsed_packet) [];
      Ok (parsed_packet, packet_list)
  | _ => Raise ValueError
  end.

(** A calibration that keeps the raw count, to run the decoder on
    concrete frames. *)
Definition raw_counts : data_conversions :=
  {| loadCell2Conversion := float_of_int;
     pressureConversion := float_of_int;
     thermistorConversion := float_of_int;
     thermistor2Conversion := float_of_int;
     thermocouple3Conversion := float_of_int |}.

(** ** Vocabulary of the properties *)

(** Reading a buffer by byte offset, independently of [struct]. *)
Definition byte_at (data : list byte) (i : nat) : Z := byte_val (nth i data x00).

Definition u16_at (data : list byte) (off : nat) : Z :=
  byte_at data off + 2 ^ 8 * byte_at data (off + 1).

Definition u32_at (data : list byte) (off : nat) : Z :=
  byte_at data off + 2 ^ 8 * byte_at data (off + 1)
  + 2 ^ 16 * byte_at data (off + 2) + 2 ^ 24 * byte_at data (off + 3).

(** The headers for which [parse_packet_message] has a decoding case. *)
Definition has_case (h : PacketHeader) : Prop :=
  match type h with
  | CONTROL => In (sub_type h) [ACT_REQ; ACT_ACK; ARM_REQ; ARM_ACK]
  | TELEMETRY =>
      In (sub_type h) [TEMPERATURE; PRESSURE; MASS; ARMING_STATE; ACT_STATE; WARNING]
  end.

Definition header (t : PacketType) (s : TelemetryPacketSubType) : PacketHeader :=
  {| type := t; sub_type := s |}.

(** The character of a bit, and the [k] bits of [n] from bit [i] upwards
    as a string, lowest bit first. *)
Definition digit (b : bool) : ascii := if b then "1"%char else "0"%char.

Fixpoint bits_from (n : Z) (i : nat) (k : nat) : string :=
  match k with
  | O => ""
  | S k' => String (digit (Z.testbit n (Z.of_nat i))) (bits_from n (S i) k')
  end.

(** [int.bit_length], and the number of characters of ['{:012b}'] *)
Definition bit_length (n : Z) : nat :=
  match n with
  | Zpos p => Pos.size_nat p
  | _ => 0%nat
  end.

Definition valve_count (n : Z) : nat := Nat.max 12 (bit_length n).

(** The valve word of a frame: the upper 16 bits of its status field, the
    32-bit field at byte offset 22. *)
Definition valve_word (data : list byte) : Z := u32_at data 22 / 2 ^ 16.

(** Polarity of a valve: a default-open valve reads inverted. *)
Definition valve_state (default_open bit : bool) : ActuatorState :=
  if default_open then (if bit then OFF else ON) else (if bit then ON else OFF).

Definition valve_event (timestamp : Z) (default_open_valves : gset Z) (n : Z) (i : nat)
  : PacketHeader * PacketMessage :=
  (header TELEMETRY ACT_STATE,
   ActuatorStatePacket timestamp (Z.of_nat i)
     (valve_state (bool_decide (Z.of_nat i ∈ default_open_valves))
        (Z.testbit n (Z.of_nat i)))).

(** The nine sensor events of a parsed packet, in the order of its fields. *)
Definition sensor_events (timestamp : Z) (p : SerialDataPacket) : packet_list_t :=
  [(header TELEMETRY MASS, MassPacket timestamp (Float (m1 p)) 1);
   (header TELEMETRY MASS, MassPacket timestamp (Float (m2 p)) 2);
   (header TELEMETRY PRESSURE, PressurePacket timestamp (Float (p1 p)) 1);
   (header TELEMETRY PRESSURE, PressurePacket timestamp (Float (p2 p)) 2);
   (header TELEMETRY PRESSURE, PressurePacket timestamp (Float (p3 p)) 3);
   (header TELEMETRY PRESSURE, PressurePacket timestamp (Float (p4 p)) 4);
   (header TELEMETRY TEMPERATURE, TemperaturePacket timestamp (Float (t1 p)) 1);
   (header TELEMETRY TEMPERATURE, TemperaturePacket timestamp (Float (t2 p)) 2);
   (header TELEMETRY TEMPERATURE, TemperaturePacket timestamp (Float (t3 p)) 3)].

(** The packet of a frame, field by field from the byte offsets. *)
Definition frame_packet {conv : data_conversions} (data : list byte) : SerialDataPacket :=
  {| m1 := truediv (u16_at data 6) 1000;
     m2 := loadCell2Conversion (u16_at data 4);
     p1 := pressureConversion (u16_at data 8);
     p2 := pressureConversion (u16_at data 10);
     p3 := pressureConversion (u16_at data 12);
     p4 := pressureConversion (u16_at data 14);
     t1 := thermistorConversion (u16_at data 16);
     t2 := thermistor2Conversion (u16_at data 18);
     t3 := thermocouple3Conversion (u16_at data 20);
     status := bits_from (valve_word data) 0 (valve_count (valve_word data)) |}.

(** Two concrete frames: the sensor fields hold 1, 1500, 3, ..., 9; the
    status field is [0x0001ffff] in the first (valve word 1) and
    [0x10000000] in the second (valve word [0x1000], bit 12 set). *)
Definition frame_valve0 : list byte :=
  [x00; x00; x00; x00; x01; x00; xdc; x05; x03; x00; x04; x00; x05; x00;
   x06; x00; x07; x00; x08; x00; x09; x00; xff; xff; x01; x00].

Definition frame_bit12 : list byte :=
  [x00; x00; x00; x00; x01; x00; xdc; x05; x03; x00; x04; x00; x05; x00;
   x06; x00; x07; x00; x08; x00; x09; x00; x00; x00; x00; x10].

(** ** The socket handler of [widget.py] *)

(** [Widget.receive_socket_data], on the bytes one [readAll] returned: the
    first two bytes are the header and all the rest is the payload, with
    the slices of Python, which shorten silently on a short buffer.  The
    header is printed when both decode; what is printed is the output. *)
Definition receive_socket_data (data : list byte) : result (list PacketHeader) :=
  let header_bytes := firstn 2 data in
  let message_bytes := skipn 2 data in
  header ← parse_packet_header header_bytes;
  message ← parse_packet_message header message_bytes;
  Ok [header].

(** ** The data handlers of [main_window/data_handlers.py] *)

(** The handlers are functions of a [MainWindow] object, whose class is in
    [main_window.py], not among the sources.  What a handler does to the
    window is recorded as the sequence of the method calls it makes on the
    window and on its mutex, in order, each call taken to return; the one
    attribute the handlers read and assign themselves is
    [heartbeat_timeout]. *)

(** The two members of [MainWindow.UDPConnectionStatus] the handlers use. *)
Inductive UDPConnectionStatus : Set := CONNECTED | CONNECTION_LOST.

Inductive call : Set :=
| self_plot_point (header : PacketHeader) (message : PacketMessage)
| self_update_act_state (message : PacketMessage)
| self_reset_heartbeat_timeout
| self_turn_on_valve (id : Z)
| self_turn_off_valve (id : Z)
| self_write_to_log (text : string)
| self_update_udp_connection_display (status : UDPConnectionStatus)
| heartbeat_mutex_lock
| heartbeat_mutex_unlock.

(** A handler that can raise: the calls made so far, and the outcome. *)
Definition eff (A : Type) : Type := (list call * result A)%type.

#[global] Instance eff_ret : MRet eff := fun A a => ([], Ok a).
#[global] Instance eff_bind : MBind eff := fun A B f m =>
  match m with
  | (calls, Ok a) => let '(calls', r) := f a in ((calls ++ calls')%list, r)
  | (calls, Raise e) => (calls, Raise e)
  end.

Definition perform (c : call) : eff unit := ([c], Ok tt).
Definition lift {A : Type} (r : result A) : eff A := ([], r).

Definition process_data (header : PacketHeader) (message : PacketMessage)
    (reset_heartbeat : bool) : list call :=
  match sub_type header with
  | TEMPERATURE | PRESSURE | MASS => [self_plot_point header message]
  | ACT_STATE =>
      self_update_act_state message
      :: (if reset_heartbeat then [self_reset_heartbeat_timeout] else [])
  | _ => []
  end.

(** What the [state] attribute of a message can hold. *)
Inductive state_val : Set :=
| state_int (z : Z)
| state_actuator (s : ActuatorState)
| state_arming (s : ArmingState).

(** [message.state] and [message.id]: a dataclass without the field raises
    [AttributeError]. *)
Definition getattr_state (message : PacketMessage) : result state_val :=
  match message with
  | ActuationRequest _ state => Ok (state_int state)
  | ArmingStatePacket _ state => Ok (state_arming state)
  | ActuatorStatePacket _ _ state => Ok (state_actuator state)
  | _ => Raise AttributeError
  end.

Definition getattr_id (message : PacketMessage) : result Z :=
  match message with
  | ActuationRequest id _ | ActuationAcknowledgement id _
  | TemperaturePacket _ _ id | PressurePacket _ _ id | MassPacket _ _ id
  | ActuatorStatePacket _ id _ => Ok id
  | _ => Raise AttributeError
  end.

(** [f"{state}"]: an [Enum] member formats as its class and member name, an
    [int] in decimal. *)
Definition format_state (state : state_val) : string :=
  match state with
  | state_int z => pretty z
  | state_actuator OFF => "ActuatorState.OFF"
  | state_actuator ON => "ActuatorState.ON"
  | state_arming ARMED_PAD => "ArmingState.ARMED_PAD"
  | state_arming ARMED_VALVES => "ArmingState.ARMED_VALVES"
  | state_arming ARMED_IGNITION => "ArmingState.ARMED_IGNITION"
  | state_arming ARMED_DISCONNECTED => "ArmingState.ARMED_DISCONNECTED"
  | state_arming ARMED_LAUNCH => "ArmingState.ARMED_LAUNCH"
  end.

Definition update_act_state (message : PacketMessage) : eff unit :=
  state ← lift (getattr_state message);
  _ ← match state with
      | state_actuator OFF =>
          id ← lift (getattr_id message); perform (self_turn_off_valve id)
      | state_actuator ON =>
          id ← lift (getattr_id message); perform (self_turn_on_valve id)
      | _ => mret tt
      end;
  id ← lift (getattr_id message);
  if Z.eqb id 0 then
    _ ← perform (self_write_to_log "////////////////////////////");
    perform (self_write_to_log ("Fire Valve: " +:+ format_state state))
  else if Z.eqb id 13 then
    perform (self_write_to_log ("Quick Disconnect: " +:+ format_state state))
  else if Z.eqb id 14 then
    _ ← perform (self_write_to_log ("Igniter: " +:+ format_state state));
    perform (self_write_to_log "////////////////////////////")
  else
    perform (self_write_to_log ("XV-" +:+ pretty id +:+ ": " +:+ format_state state)).

(** The two heartbeat handlers, on the value of [self.heartbeat_timeout]:
    the new value and the calls made. *)
Definition reset_heartbeat_timeout (heartbeat_timeout : Z) : Z * list call :=
  (6, [heartbeat_mutex_lock;
       self_update_udp_connection_display CONNECTED;
       heartbeat_mutex_unlock]).

Definition decrease_heartbeat (heartbeat_timeout : Z) : Z * list call :=
  let heartbeat_timeout := heartbeat_timeout - 1 in
  (heartbeat_timeout,
   ([heartbeat_mutex_lock]
    ++ (if Z.leb heartbeat_timeout 0
        then [self_update_udp_connection_display CONNECTION_LOST;
              self_write_to_log
                ("Heartbeat not found for "
                 +:+ pretty (Z.abs heartbeat_timeout + 1) +:+ " seconds")]
        else [])
    ++ [heartbeat_mutex_unlock])%list).

(** ** Further vocabulary *)

(** The header a message dataclass belongs to. *)
Definition message_header (m : PacketMessage) : PacketHeader :=
  match m with
  | ActuationRequest _ _ => header CONTROL ACT_REQ
  | ActuationAcknowledgement _ _ => header CONTROL ACT_ACK
  | ArmingRequest _ => header CONTROL ARM_REQ
  | ArmingAcknowledgement _ => header CONTROL ARM_ACK
  | TemperaturePacket _ _ _ => header TELEMETRY TEMPERATURE
  | PressurePacket _ _ _ => header TELEMETRY PRESSURE
  | MassPacket _ _ _ => header TELEMETRY MASS
  | ArmingStatePacket _ _ => header TELEMETRY ARMING_STATE
  | ActuatorStatePacket _ _ _ => header TELEMETRY ACT_STATE
  | WarningPacket _ _ => header TELEMETRY WARNING
  end.

(** The [time_since_power] field, which the control dataclasses lack. *)
Definition time_since_power_of (m : PacketMessage) : option Z :=
  match m with
  | TemperaturePacket t _ _ | PressurePacket t _ _ | MassPacket t _ _
  | ArmingStatePacket t _ | ActuatorStatePacket t _ _ | WarningPacket t _ => Some t
  | _ => None
  end.

(** [n] timer ticks in a row: the last value of the timeout and the calls
    of all the ticks. *)
Fixpoint ticks (n : nat) (heartbeat_timeout : Z) : Z * list call :=
  match n with
  | O => (heartbeat_timeout, [])
  | S n' =>
      let '(t, calls) := decrease_heartbeat heartbeat_timeout in
      let '(t', calls') := ticks n' t in
      (t', (calls ++ calls')%list)
  end.

(** The lines a sequence of calls writes to the log. *)
Definition logged (calls : list call) : list string :=
  omap (fun c => match c with self_write_to_log text => Some text | _ => None end)
    calls.

(** The calls [process_data] makes on a sequence of decoded events. *)
Definition process_all (evs : packet_list_t) (reset_heartbeat : bool) : list call :=
  flat_map (fun ev => process_data (fst ev) (snd ev) reset_heartbeat) evs.

(** ** [plot_point] *)

(** What [plot_point] uses of numpy and of Python floats, as parameters:
    the arrays of points, with
    [np.append(points, np.array([[t, v]]), axis=0)] taken to return, and
    [str] on a [float]. *)
Class plot_runtime : Type :=
  { ndarray : Type;
    np_append_row : ndarray -> Z -> pyval -> ndarray;
    str_float : float -> string }.

(** [str(v)], which is also how an f-string formats [v]. *)
Definition str_of `{plot_runtime} (v : pyval) : string :=
  match v with
  | Int z => pretty z
  | Float x => str_float x
  | Str s => s
  end.

(** The calls [plot_point] makes: [setData] on the data line of a plot,
    [setText] on a value label, and [changeReading] on [self.sensors[index]]
    (the body of [change_new_reading]), each taken to return. *)
Inductive plot_call `{plot_runtime} : Type :=
| data_line_setData (key : string) (points : ndarray)
| value_label_setText (key : string) (text : string)
| sensor_changeReading (index : Z) (newReading : string).

(** [plot_point] can raise [KeyError], on a key the [plots] dict lacks,
    besides the exceptions of [exn]. *)
Inductive outcome (A : Type) : Type :=
| Done (a : A)
| KeyError (key : string)
| Raised (e : exn).
Arguments Done {A} a.
Arguments KeyError {A} key.
Arguments Raised {A} e.

#[global] Instance outcome_ret : MRet outcome := fun A a => Done a.
#[global] Instance outcome_bind : MBind outcome := fun A B f m =>
  match m with
  | Done a => f a
  | KeyError key => KeyError key
  | Raised e => Raised e
  end.

Definition of_result {A : Type} (r : result A) : outcome A :=
  match r with
  | Ok a => Done a
  | Raise e => Raised e
  end.

Definition getattr_time_since_power (message : PacketMessage) : result Z :=
  match message with
  | TemperaturePacket t _ _ | PressurePacket t _ _ | MassPacket t _ _
  | ArmingStatePacket t _ | ActuatorStatePacket t _ _ | WarningPacket t _ => Ok t
  | _ => Raise AttributeError
  end.

Definition getattr_temperature (message : PacketMessage) : result pyval :=
  match message with
  | TemperaturePacket _ temperature _ => Ok temperature
  | _ => Raise AttributeError
  end.

Definition getattr_pressure (message : PacketMessage) : result pyval :=
  match message with
  | PressurePacket _ pressure _ => Ok pressure
  | _ => Raise AttributeError
  end.

Definition getattr_mass (message : PacketMessage) : result pyval :=
  match message with
  | MassPacket _ mass _ => Ok mass
  | _ => Raise AttributeError
  end.

(** The two lines the three cases share: the point is appended to the
    array of [plots[key]], which is then given to the data line.  The
    lookup [plots[key]] comes first, then the attributes of the message. *)
Definition append_point `{plot_runtime} (plots : gmap string ndarray) (key : string)
    (message : PacketMessage) (reading : PacketMessage -> result pyval)
  : outcome (gmap string ndarray * list plot_call) :=
  match plots !! key with
  | None => KeyError key
  | Some points =>
      time ← of_result (getattr_time_since_power message);
      value ← of_result (reading message);
      let points' := np_append_row points time value in
      Done (<[key := points']> plots, [data_line_setData key points'])
  end.

(** [plot_point], on the arrays of [self.plots] and the keys of
    [self.pid_window.value_labels]: the new arrays and the calls made. *)
Definition plot_point `{plot_runtime} (plots : gmap string ndarray)
    (value_labels : gset string) (header : PacketHeader) (message : PacketMessage)
  : outcome (gmap string ndarray * list plot_call) :=
  match type header with
  | CONTROL => Done (plots, [])
  | TELEMETRY =>
      match sub_type header with
      | TEMPERATURE =>
          id ← of_result (getattr_id message);
          let temperatureId := "t" +:+ pretty id in
          appended ← append_point plots temperatureId message getattr_temperature;
          temperature ← of_result (getattr_temperature message);
          let text := str_of temperature +:+ " °C" in
          Done (fst appended,
                (snd appended
                 ++ (if bool_decide (temperatureId ∈ value_labels)
                     then [value_label_setText temperatureId text] else [])
                 ++ [sensor_changeReading (id - 1) text])%list)
      | PRESSURE =>
          id ← of_result (getattr_id message);
          let pressureId := "p" +:+ pretty id in
          appended ← append_point plots pressureId message getattr_pressure;
          pressure ← of_result (getattr_pressure message);
          let text := str_of pressure +:+ " psi" in
          Done (fst appended,
                (snd appended
                 ++ (if bool_decide (pressureId ∈ value_labels)
                     then [value_label_setText pressureId text] else [])
                 ++ [sensor_changeReading (id + 4) text])%list)
      | MASS =>
          id ← of_result (getattr_id message);
          let massId := "m" +:+ pretty id in
          appended ← append_point plots massId message getattr_mass;
          mass ← of_result (getattr_mass message);
          let text := str_of mass +:+ " kg" in
          Done (fst appended,
                (snd appended
                 ++ [sensor_changeReading (if Z.eqb id 1 then 4 else 9) text])%list)
      | _ => Done (plots, [])
      end
  end.

(** The index [plot_point] gives [change_new_reading], when it does. *)
Definition reading_slot `{plot_runtime} (calls : list plot_call) : list Z :=
  omap (fun c => match c with sensor_changeReading index _ => Some index | _ => None end)
    calls.

(** The key of the plot of a sensor subtype and channel id. *)
Definition plot_key (s : TelemetryPacketSubType) (id : Z) : string :=
  match s with
  | TEMPERATURE => "t" +:+ pretty id
  | PRESSURE => "p" +:+ pretty id
  | _ => "m" +:+ pretty id
  end.

(** A runtime to run [plot_point] on concrete packets: an array is the list
    of its rows, and a float is not printed. *)
Definition list_runtime : plot_runtime :=
  {| ndarray := list (Z * pyval);
     np_append_row points t v := (points ++ [(t, v)])%list;
     str_float _ := "<float>" |}.

(** Two empty plots, for temperature channel 2 and pressure channel 1. *)
Definition two_plots : gmap string (list (Z * pyval)) :=
  {["t2" := []; "p1" := []]}.

(** ** The [struct] model on buffers of known shape *)

Lemma byte_val_range (b : byte) : 0 <= byte_val b <= 255.
Proof.
  unfold byte_val. pose proof (Byte.to_N_bounded b) as Hb.
  lia.
Qed.

Ltac fields_eq :=
  apply (f_equal Ok); repeat (apply (f_equal2 (@cons Z)); [lia|]); reflexivity.

Lemma unpack_BB (a b : byte) :
  struct.unpack "<BB" [a; b] = Ok [byte_val a; byte_val b].
Proof.
  unfold struct.unpack; cbn. fields_eq.
Qed.

Lemma unpack_B (a : byte) : struct.unpack "<B" [a] = Ok [byte_val a].
Proof.
  unfold struct.unpack; cbn. fields_eq.
Qed.

Tactic Notation "exact_length" ident(bs) hyp(H) integer(n) :=
  do n (destruct bs as [|? bs]; [discriminate H|]);
  destruct bs; [clear H|discriminate H].

Lemma unpack_IIB (bs : list byte) :
  length bs = 9%nat ->
  struct.unpack "<IIB" bs = Ok [u32_at bs 0; u32_at bs 4; byte_at bs 8].
Proof.
  intros Hlen. exact_length bs Hlen 9.
  unfold struct.unpack, u32_at, byte_at; cbn. fields_eq.
Qed.

Lemma unpack_IB (bs : list byte) :
  length bs = 5%nat ->
  struct.unpack "<IB" bs = Ok [u32_at bs 0; byte_at bs 4].
Proof.
  intros Hlen. exact_length bs Hlen 5.
  unfold struct.unpack, u32_at, byte_at; cbn. fields_eq.
Qed.

Lemma unpack_IBB (bs : list byte) :
  length bs = 6%nat ->
  struct.unpack "<IBB" bs = Ok [u32_at bs 0; byte_at bs 4; byte_at bs 5].
Proof.
  intros Hlen. exact_length bs Hlen 6.
  unfold struct.unpack, u32_at, byte_at; cbn. fields_eq.
Qed.

(** ** Calling an enumeration class *)

Section EnumCall.
Context {A : Type} `{Enum A}.

Lemma Enum_call_value (v : Z) (m : A) : Enum_call A v = Ok m -> value m = v.
Proof.
  unfold Enum_call. destruct (find _ _) as [m'|] eqn:Hfind; [|discriminate].
  intros [= <-]. apply find_some in Hfind as [_ Heq]. lia.
Qed.

Lemma Enum_call_raises (v : Z) :
  (forall m, In m members -> value m <> v) -> Enum_call A v = Raise ValueError.
Proof.
  intros Hnone. unfold Enum_call.
  destruct (find _ _) as [m|] eqn:Hfind; [|reflexivity].
  apply find_some in Hfind as [Hin Heq]. destruct (Hnone m Hin). lia.
Qed.

Lemma Enum_call_member (m : A) :
  In m members -> exists m', Enum_call A (value m) = Ok m'.
Proof.
  intros Hin. unfold Enum_call.
  destruct (find _ _) as [m'|] eqn:Hfind; [eauto|].
  pose proof (find_none _ _ Hfind m Hin) as Hne. cbn in Hne. lia.
Qed.
End EnumCall.

Lemma PacketType_domain (v : Z) :
  0 <= v <= 1 <-> exists t, Enum_call PacketType v = Ok t.
Proof.
  split.
  - intros Hv. assert (v = 0 \/ v = 1) as [-> | ->] by lia; eexists; reflexivity.
  - intros [t Ht]. apply Enum_call_value in Ht. destruct t; cbn in Ht; lia.
Qed.

Lemma TelemetryPacketSubType_domain (v : Z) :
  0 <= v <= 9 <-> exists s, Enum_call TelemetryPacketSubType v = Ok s.
Proof.
  split.
  - intros Hv.
    assert (v = 0 \/ v = 1 \/ v = 2 \/ v = 3 \/ v = 4 \/ v = 5 \/ v = 6
            \/ v = 7 \/ v = 8 \/ v = 9) as Hcases by lia.
    repeat destruct Hcases as [-> | Hcases]; try subst v; eexists; reflexivity.
  - intros [s Hs]. apply Enum_call_value in Hs. destruct s; cbn in Hs; lia.
Qed.

Lemma Enum_call_total {A : Type} `{Enum A} (v : Z) :
  (exists m, Enum_call A v = Ok m) \/ Enum_call A v = Raise ValueError.
Proof.
  unfold Enum_call. destruct (find _ _); eauto.
Qed.

(** ** Header decoder *)

Lemma parse_packet_header_unfold (t s : byte) :
  parse_packet_header [t; s] =
    (ty ← Enum_call PacketType (byte_val t);
     st ← Enum_call TelemetryPacketSubType (byte_val s);
     Ok {| type := ty; sub_type := st |}).
Proof.
  unfold parse_packet_header. rewrite unpack_BB. reflexivity.
Qed.

(** C2.  On a two-byte input [(type_code, subtype_code)] the header decoder
    returns the header whose type and subtype have exactly these codes when
    [type_code] is 0 or 1 and [subtype_code] is between 0 and 9, and raises
    [ValueError] (the enumeration's rejection of a value) on every other
    pair of codes.  The bytes [01 00] give [TELEMETRY, TEMPERATURE] and a
    type code of 5 is rejected. *)
Theorem parse_packet_header_domain (t s : byte) :
  (0 <= byte_val t <= 1 /\ 0 <= byte_val s <= 9 ->
   exists h, parse_packet_header [t; s] = Ok h
             /\ value (type h) = byte_val t
             /\ value (sub_type h) = byte_val s)
  /\ (~ (0 <= byte_val t <= 1 /\ 0 <= byte_val s <= 9) ->
      parse_packet_header [t; s] = Raise ValueError)
  /\ parse_packet_header [x01; x00] = Ok (header TELEMETRY TEMPERATURE)
  /\ parse_packet_header [x05; x00] = Raise ValueError.
Proof.
  rewrite parse_packet_header_unfold. repeat split; try reflexivity.
  - intros [Ht Hs].
    apply PacketType_domain in Ht as [ty Hty].
    apply TelemetryPacketSubType_domain in Hs as [st Hst].
    exists {| type := ty; sub_type := st |}. rewrite Hty, Hst. cbn.
    split; [reflexivity|].
    split; [exact (Enum_call_value _ _ Hty) | exact (Enum_call_value _ _ Hst)].
  - intros Hout.
    destruct (Enum_call_total (A:=PacketType) (byte_val t)) as [[ty Hty]|Hty];
      rewrite Hty; [|reflexivity].
    destruct (Enum_call_total (A:=TelemetryPacketSubType) (byte_val s))
      as [[st Hst]|Hst]; rewrite Hst; [|reflexivity].
    destruct Hout. split.
    + apply PacketType_domain; eauto.
    + apply TelemetryPacketSubType_domain; eauto.
Qed.

Lemma parse_packet_header_domain_witness :
  (exists h, parse_packet_header [x01; x04] = Ok h
             /\ value (type h) = 1 /\ value (sub_type h) = 4)
  /\ parse_packet_header [x02; x0a] = Raise ValueError.
Proof.
  destruct (parse_packet_header_domain x01 x04) as (Hin & _).
  destruct (parse_packet_header_domain x02 x0a) as (_ & Hout & _).
  split.
  - apply Hin. vm_compute. intuition discriminate.
  - apply Hout. vm_compute. intros [[_ Hle] _]. apply Hle. reflexivity.
Defined.

(** ** Payload length table *)

(** C3, as the code has it.  The table has its three [TELEMETRY] rows: 9
    for [TEMPERATURE], [PRESSURE] and [MASS], 6 for [ACT_STATE], 5 for
    [ARMING_STATE] and [WARNING].  Every other header, among them every
    [CONTROL] header, gets no length: the function returns [None] and
    raises nothing. *)
Theorem packet_message_bytes_length_table (h : PacketHeader) :
  (type h = TELEMETRY /\ In (sub_type h) [TEMPERATURE; PRESSURE; MASS] ->
   packet_message_bytes_length h = Ok (Some 9))
  /\ (type h = TELEMETRY /\ sub_type h = ACT_STATE ->
      packet_message_bytes_length h = Ok (Some 6))
  /\ (type h = TELEMETRY /\ In (sub_type h) [ARMING_STATE; WARNING] ->
      packet_message_bytes_length h = Ok (Some 5))
  /\ (type h = CONTROL \/ In (sub_type h) [ACT_REQ; ACT_ACK; ARM_REQ; ARM_ACK] ->
      packet_message_bytes_length h = Ok None)
  /\ (forall e, packet_message_bytes_length h <> Raise e).
Proof.
  destruct h as [t s]; unfold packet_message_bytes_length; cbn.
  repeat split; destruct t, s; intros; try reflexivity; try discriminate;
    intuition discriminate.
Qed.

Lemma packet_message_bytes_length_table_witness :
  packet_message_bytes_length (header TELEMETRY MASS) = Ok (Some 9)
  /\ packet_message_bytes_length (header TELEMETRY ACT_STATE) = Ok (Some 6)
  /\ packet_message_bytes_length (header TELEMETRY WARNING) = Ok (Some 5)
  /\ packet_message_bytes_length (header CONTROL ARM_ACK) = Ok None.
Proof.
  pose proof (packet_message_bytes_length_table (header TELEMETRY MASS))
    as (Hsensor & _).
  pose proof (packet_message_bytes_length_table (header TELEMETRY ACT_STATE))
    as (_ & Hact & _).
  pose proof (packet_message_bytes_length_table (header TELEMETRY WARNING))
    as (_ & _ & Hstate & _).
  pose proof (packet_message_bytes_length_table (header CONTROL ARM_ACK))
    as (_ & _ & _ & Hnone & _).
  split; [|split; [|split]].
  - apply Hsensor. cbn; tauto.
  - apply Hact. cbn; tauto.
  - apply Hstate. cbn; tauto.
  - apply Hnone. cbn; tauto.
Defined.

(** C3 as stated fails: for the header [CONTROL, ACT_REQ] the table of the
    specification gives 2, and for [TELEMETRY, ACT_REQ], which the table
    does not cover, the specification asks for a failure; the function
    returns [None] for both. *)
Lemma packet_message_bytes_length_control_counterexample :
  packet_message_bytes_length (header CONTROL ACT_REQ) = Ok None
  /\ packet_message_bytes_length (header CONTROL ACT_REQ) <> Ok (Some 2)
  /\ packet_message_bytes_length (header TELEMETRY ACT_REQ) = Ok None
  /\ (forall e, packet_message_bytes_length (header TELEMETRY ACT_REQ) <> Raise e).
Proof.
  repeat split; discriminate.
Qed.

(** ** Message decoder *)

(** C4.  The [ACT_REQ] case never reaches [struct.unpack]: the argument
    list of the call is the attribute access ["<BB".message_bytes], which
    raises [AttributeError] whatever the payload is, so no
    [ActuationRequest] is ever returned. *)
Theorem parse_packet_message_ACT_REQ_raises (message_bytes : list byte) :
  parse_packet_message (header CONTROL ACT_REQ) message_bytes = Raise AttributeError
  /\ parse_packet_message (header CONTROL ACT_REQ) [x03; x01] = Raise AttributeError.
Proof.
  split; reflexivity.
Qed.

(** C5.  The control cases store what [struct.unpack] returned without
    calling the enumeration class: an [ACT_ACK] payload whose status byte
    is 7 is accepted with the raw 7 (which [ActuationRequestStatus]
    rejects), and [ARM_REQ] and [ARM_ACK] store the one-element tuple
    itself; [ACT_REQ] fails with [AttributeError], not with the
    enumeration's [ValueError]. *)
Theorem parse_packet_message_control_enums_unchecked :
  parse_packet_message (header CONTROL ACT_ACK) [x01; x07]
    = Ok (Some (ActuationAcknowledgement 1 7))
  /\ Enum_call ActuationRequestStatus 7 = Raise ValueError
  /\ parse_packet_message (header CONTROL ARM_REQ) [x09]
     = Ok (Some (ArmingRequest [9]))
  /\ Enum_call ArmingState 9 = Raise ValueError
  /\ parse_packet_message (header CONTROL ARM_ACK) [x05]
     = Ok (Some (ArmingAcknowledgement [5]))
  /\ Enum_call AcknowledgementStatus 5 = Raise ValueError
  /\ parse_packet_message (header CONTROL ACT_REQ) [x01; x07] = Raise AttributeError
  /\ parse_packet_message (header CONTROL ACT_ACK) [x01; x02]
     = Ok (Some (ActuationAcknowledgement 1 2)).
Proof.
  repeat split; reflexivity.
Qed.

(** C6.  A 9-byte payload under a [TELEMETRY] header with subtype
    [TEMPERATURE], [PRESSURE] or [MASS] decodes to the matching sensor
    packet: the time is the little-endian 32-bit value of bytes 0..3, the
    reading that of bytes 4..7 and the channel id is byte 8. *)
Theorem parse_packet_message_sensor (message_bytes : list byte) :
  length message_bytes = 9%nat ->
  parse_packet_message (header TELEMETRY TEMPERATURE) message_bytes
    = Ok (Some (TemperaturePacket (u32_at message_bytes 0)
                  (Int (u32_at message_bytes 4)) (byte_at message_bytes 8)))
  /\ parse_packet_message (header TELEMETRY PRESSURE) message_bytes
     = Ok (Some (PressurePacket (u32_at message_bytes 0)
                   (Int (u32_at message_bytes 4)) (byte_at message_bytes 8)))
  /\ parse_packet_message (header TELEMETRY MASS) message_bytes
     = Ok (Some (MassPacket (u32_at message_bytes 0)
                   (Int (u32_at message_bytes 4)) (byte_at message_bytes 8))).
Proof.
  intros Hlen. unfold parse_packet_message; cbn [type sub_type header].
  rewrite (unpack_IIB _ Hlen). repeat split; reflexivity.
Qed.

(** The scenario of the specification: time 1000, value 250, channel 2. *)
Lemma parse_packet_message_sensor_witness :
  parse_packet_message (header TELEMETRY TEMPERATURE)
    [xe8; x03; x00; x00; xfa; x00; x00; x00; x02]
  = Ok (Some (TemperaturePacket 1000 (Int 250) 2)).
Proof.
  exact (proj1 (parse_packet_message_sensor
                  [xe8; x03; x00; x00; xfa; x00; x00; x00; x02] eq_refl)).
Defined.

(** C9.  A header has no decoding case exactly when [parse_packet_message]
    returns [None] on it, whatever the payload: a [CONTROL] header with a
    sensor or state subtype, or a [TELEMETRY] header with a request or
    acknowledgement subtype, yields neither a message nor an exception. *)
Theorem parse_packet_message_no_case (h : PacketHeader) (message_bytes : list byte) :
  (~ has_case h -> parse_packet_message h message_bytes = Ok None)
  /\ (has_case h -> parse_packet_message h message_bytes <> Ok None)
  /\ parse_packet_message (header CONTROL TEMPERATURE) message_bytes = Ok None
  /\ parse_packet_message (header TELEMETRY ACT_REQ) message_bytes = Ok None.
Proof.
  repeat split; try reflexivity.
  - destruct h as [[] []]; unfold has_case; cbn; intros Hno;
      try reflexivity; exfalso; apply Hno; tauto.
  - destruct h as [[] []]; unfold has_case, parse_packet_message;
      cbn [type sub_type In]; intros Hcase; try (exfalso; intuition discriminate);
      try discriminate;
      unfold struct.unpack; cbn [struct.parse_format struct.codes_of struct.code_of
                                   Ascii.eqb Bool.eqb];
      cbn -[struct.le_uint firstn skipn length Nat.eqb Enum_call];
      destruct (Nat.eqb _ _); cbn -[struct.le_uint firstn skipn Enum_call];
      try discriminate;
      match goal with
      | |- context [Enum_call ?A ?v] =>
          destruct (Enum_call_total (A:=A) v) as [[m Hm]|Hm]; rewrite Hm;
          discriminate
      end.
Qed.

Lemma parse_packet_message_no_case_witness :
  parse_packet_message (header CONTROL WARNING) [x00; x01] = Ok None
  /\ parse_packet_message (header TELEMETRY ARMING_STATE) [x00; x00; x00; x00; x02]
     <> Ok None.
Proof.
  split.
  - apply (proj1 (parse_packet_message_no_case (header CONTROL WARNING) [x00; x01])).
    unfold has_case; cbn. intuition discriminate.
  - apply (proj1 (proj2 (parse_packet_message_no_case
                           (header TELEMETRY ARMING_STATE)
                           [x00; x00; x00; x00; x02]))).
    unfold has_case; cbn. tauto.
Defined.

(** ** Strings of bits *)

Lemma append_nil (s : string) : "" +:+ s = s.
Proof. reflexivity. Qed.

Lemma append_cons (a : ascii) (s1 s2 : string) :
  String a s1 +:+ s2 = String a (s1 +:+ s2).
Proof. reflexivity. Qed.

Lemma append_assoc (s1 s2 s3 : string) :
  (s1 +:+ s2) +:+ s3 = s1 +:+ (s2 +:+ s3).
Proof.
  induction s1 as [|a s1 IH]; [reflexivity|].
  rewrite !append_cons, IH. reflexivity.
Qed.

Lemma rev_app_append (s1 s2 acc : string) :
  String.rev_app (s1 +:+ s2) acc = String.rev_app s2 (String.rev_app s1 acc).
Proof.
  revert acc; induction s1 as [|a s1 IH]; intros acc; [reflexivity|].
  rewrite append_cons. cbn [String.rev_app]. apply IH.
Qed.

Lemma rev_app_acc (s acc : string) :
  String.rev_app s acc = String.rev s +:+ acc.
Proof.
  unfold String.rev. revert acc.
  induction s as [|a s IH]; intros acc; cbn [String.rev_app]; [reflexivity|].
  rewrite IH, (IH (String a "")), append_assoc. reflexivity.
Qed.

Lemma rev_append (s1 s2 : string) :
  String.rev (s1 +:+ s2) = String.rev s2 +:+ String.rev s1.
Proof.
  unfold String.rev at 1. rewrite rev_app_append, rev_app_acc. reflexivity.
Qed.

Lemma zeros_snoc (k : nat) : zeros k +:+ "0" = String "0" (zeros k).
Proof.
  induction k as [|k IH]; [reflexivity|].
  cbn [zeros]. rewrite append_cons, IH. reflexivity.
Qed.

Lemma rev_zeros (k : nat) : String.rev (zeros k) = zeros k.
Proof.
  induction k as [|k IH]; [reflexivity|].
  change (zeros (S k)) with ("0" +:+ zeros k).
  rewrite rev_append, IH. apply zeros_snoc.
Qed.

Lemma bits_from_shift (n : Z) (i k : nat) :
  0 <= n ->
  bits_from (2 * n) (S i) k = bits_from n i k
  /\ bits_from (2 * n + 1) (S i) k = bits_from n i k.
Proof.
  intros Hn. revert i; induction k as [|k IH]; intros i; cbn [bits_from];
    [split; reflexivity|].
  destruct (IH (S i)) as [-> ->].
  rewrite !Nat2Z.inj_succ, Z.testbit_even_succ, Z.testbit_odd_succ by lia.
  split; reflexivity.
Qed.

Lemma bits_from_app (n : Z) (i k1 k2 : nat) :
  bits_from n i (k1 + k2) = bits_from n i k1 +:+ bits_from n (i + k1) k2.
Proof.
  revert i; induction k1 as [|k1 IH]; intros i; cbn [bits_from Nat.add].
  - rewrite Nat.add_0_r. reflexivity.
  - rewrite append_cons, IH, Nat.add_succ_comm. reflexivity.
Qed.

Lemma bits_from_high (n : Z) (i k : nat) :
  0 <= n < 2 ^ Z.of_nat i -> bits_from n i k = zeros k.
Proof.
  intros Hn. revert i Hn; induction k as [|k IH]; intros i Hn; cbn [bits_from zeros];
    [reflexivity|].
  rewrite IH.
  - destruct (Z.eq_dec n 0) as [->|Hne]; [rewrite Z.bits_0; reflexivity|].
    rewrite Z.bits_above_log2; [reflexivity|lia|].
    apply Z.log2_lt_pow2; lia.
  - rewrite Nat2Z.inj_succ, Z.pow_succ_r; lia.
Qed.

Lemma size_nat_bounds (p : positive) :
  2 ^ Z.of_nat (Pos.size_nat p) <= 2 * Zpos p
  /\ Zpos p < 2 ^ Z.of_nat (Pos.size_nat p).
Proof.
  induction p as [p IH|p IH|]; cbn [Pos.size_nat];
    rewrite ?Nat2Z.inj_succ, ?Z.pow_succ_r by lia; cbn; lia.
Qed.

Lemma length_bin_pos (p : positive) : String.length (bin_pos p) = Pos.size_nat p.
Proof.
  assert (Hsnoc : forall s a, String.length (s +:+ String a "") = S (String.length s)).
  { intros s a; induction s as [|b s IH]; [reflexivity|].
    rewrite append_cons; cbn [String.length]. rewrite IH. reflexivity. }
  induction p as [p IH|p IH|]; cbn [bin_pos Pos.size_nat];
    rewrite ?Hsnoc, ?IH; reflexivity.
Qed.

Lemma rev_bin_pos (p : positive) :
  String.rev (bin_pos p) = bits_from (Zpos p) 0 (Pos.size_nat p).
Proof.
  induction p as [p IH|p IH|]; cbn [bin_pos Pos.size_nat bits_from];
    [| |reflexivity].
  - rewrite rev_append, IH.
    change (Zpos p~1) with (2 * Zpos p + 1).
    rewrite (proj2 (bits_from_shift (Zpos p) 0 _ ltac:(lia))).
    rewrite Z.testbit_odd_0. reflexivity.
  - rewrite rev_append, IH.
    change (Zpos p~0) with (2 * Zpos p).
    rewrite (proj1 (bits_from_shift (Zpos p) 0 _ ltac:(lia))).
    rewrite Z.testbit_even_0. reflexivity.
Qed.

(** The valve string of a non-negative word: its bits, lowest first, at
    least twelve of them and as many as the word has. *)
Lemma rev_format_0b (n : Z) :
  0 <= n -> String.rev (format_0b 12 n) = bits_from n 0 (valve_count n).
Proof.
  intros Hn. destruct n as [|p|p]; [reflexivity| |lia].
  unfold format_0b, pad_left, valve_count, bit_length.
  rewrite rev_append, rev_zeros, rev_bin_pos, length_bin_pos.
  replace (Nat.max 12 (Pos.size_nat p))
    with (Pos.size_nat p + (12 - Pos.size_nat p))%nat by lia.
  rewrite bits_from_app, Nat.add_0_l. f_equal.
  symmetry; apply bits_from_high. pose proof (size_nat_bounds p). lia.
Qed.

(** ** The serial frame decoder, step by step *)

Lemma unpack_from_frame (data : list byte) :
  (26 <= length data)%nat ->
  struct.unpack_from "<HHHHHHHHHI" data 4
  = Ok [u16_at data 4; u16_at data 6; u16_at data 8; u16_at data 10;
        u16_at data 12; u16_at data 14; u16_at data 16; u16_at data 18;
        u16_at data 20; u32_at data 22].
Proof.
  intros Hlen.
  do 26 (destruct data as [|? data]; [cbn in Hlen; lia|]). clear Hlen.
  unfold struct.unpack_from, u16_at, u32_at, byte_at; cbn.
  change (firstn 0 data) with (@nil byte); cbn [struct.le_uint]. fields_eq.
Qed.

Lemma valve_word_range (data : list byte) : 0 <= valve_word data < 2 ^ 16.
Proof.
  unfold valve_word, u32_at, byte_at.
  pose proof (byte_val_range (nth 22 data x00)).
  pose proof (byte_val_range (nth (22 + 1) data x00)).
  pose proof (byte_val_range (nth (22 + 2) data x00)).
  pose proof (byte_val_range (nth (22 + 3) data x00)).
  split; [apply Z.div_pos; lia | apply Z.div_lt_upper_bound; lia].
Qed.

(** The loop over the fields appends the nine sensor events, then runs the
    inner loop over the characters of the status string. *)
Lemma for_each_fields (timestamp : Z) (default_open_valves : gset Z)
    (p : SerialDataPacket) :
  for_each (field_body timestamp default_open_valves) (asdict p) []
  = Ok (fold_left
          (valve_body timestamp default_open_valves (header TELEMETRY ACT_STATE))
          (enumerate (status p)) (sensor_events timestamp p)).
Proof.
  destruct p; reflexivity.
Qed.

(** The inner loop on a string of bits appends one event per bit. *)
Lemma fold_valve_body (timestamp : Z) (default_open_valves : gset Z)
    (n : Z) (k i : nat) (acc : packet_list_t) :
  fold_left (valve_body timestamp default_open_valves (header TELEMETRY ACT_STATE))
    (enumerate_from (Z.of_nat i) (bits_from n i k)) acc
  = (acc ++ map (valve_event timestamp default_open_valves n) (seq i k))%list.
Proof.
  revert i acc; induction k as [|k IH]; intros i acc;
    cbn [bits_from enumerate_from fold_left seq map].
  - rewrite app_nil_r. reflexivity.
  - replace (Z.of_nat i + 1) with (Z.of_nat (S i)) by lia.
    rewrite IH.
    match goal with
    | |- (?step ++ _)%list = _ =>
        replace step
          with (acc ++ [valve_event timestamp default_open_valves n i])%list
    end.
    + rewrite <- app_assoc. reflexivity.
    + unfold valve_body, valve_event, valve_state.
      destruct (bool_decide _), (Z.testbit n (Z.of_nat i)); reflexivity.
Qed.

(** What the decoder returns on every frame of at least 26 bytes. *)
Lemma parse_serial_packet_frame {conv : data_conversions}
    (data : list byte) (timestamp : Z) (default_open_valves : gset Z) :
  (26 <= length data)%nat ->
  parse_serial_packet data timestamp default_open_valves
  = Ok (frame_packet data,
        (sensor_events timestamp (frame_packet data)
         ++ map (valve_event timestamp default_open_valves (valve_word data))
              (seq 0 (valve_count (valve_word data))))%list).
Proof.
  intros Hlen. unfold parse_serial_packet.
  rewrite (unpack_from_frame _ Hlen). unfold mbind at 1, result_bind at 1.
  cbv zeta. rewrite for_each_fields. unfold mbind, result_bind.
  cbn [status]. change (u32_at data 22 / Z.pow 2 16) with (valve_word data).
  rewrite rev_format_0b by apply valve_word_range.
  unfold enumerate. rewrite (fold_valve_body _ _ _ _ 0). reflexivity.
Qed.

Lemma valve_count_low (n : Z) : 0 <= n < 2 ^ 12 -> valve_count n = 12%nat.
Proof.
  intros Hn. unfold valve_count, bit_length. destruct n as [|p|p]; [reflexivity| |lia].
  pose proof (size_nat_bounds p) as [Hlow _].
  assert (2 ^ Z.of_nat (Pos.size_nat p) < 2 ^ 13) as Hpow by lia.
  apply Z.pow_lt_mono_r_iff in Hpow; lia.
Qed.

Lemma lookup_map_seq {A : Type} (f : nat -> A) (i k j : nat) :
  (j < k)%nat -> map f (seq i k) !! j = Some (f (i + j)%nat).
Proof.
  revert i j; induction k as [|k IH]; intros i j Hj; [lia|].
  destruct j as [|j]; cbn [seq map].
  - rewrite Nat.add_0_r. reflexivity.
  - change ((f i :: map f (seq (S i) k)) !! S j) with (map f (seq (S i) k) !! j).
    rewrite IH by lia. f_equal. f_equal. lia.
Qed.

Lemma get_bits_from (n : Z) (i k j : nat) (c : ascii) :
  String.get j (bits_from n i k) = Some c ->
  (j < k)%nat /\ c = digit (Z.testbit n (Z.of_nat (i + j))).
Proof.
  revert i j; induction k as [|k IH]; intros i j; cbn [bits_from String.get];
    [discriminate|].
  destruct j as [|j].
  - intros [= <-]. rewrite Nat.add_0_r. split; [lia|reflexivity].
  - intros Hget. apply IH in Hget as [Hj ->].
    replace (S i + j)%nat with (i + S j)%nat by lia. split; [lia|reflexivity].
Qed.

Lemma length_bits_from (n : Z) (i k : nat) : String.length (bits_from n i k) = k.
Proof.
  revert i; induction k as [|k IH]; intros i; cbn [bits_from String.length];
    [reflexivity|]. rewrite IH. reflexivity.
Qed.

Lemma lookup_valve_event {conv : data_conversions} (timestamp : Z)
    (default_open_valves : gset Z) (p : SerialDataPacket) (n : Z) (k j : nat) :
  (j < k)%nat ->
  (sensor_events timestamp p
   ++ map (valve_event timestamp default_open_valves n) (seq 0 k))%list !! (9 + j)%nat
  = Some (valve_event timestamp default_open_valves n j).
Proof.
  intros Hj.
  change ((sensor_events timestamp p
           ++ map (valve_event timestamp default_open_valves n) (seq 0 k))%list
          !! (9 + j)%nat)
    with (map (valve_event timestamp default_open_valves n) (seq 0 k) !! j).
  rewrite lookup_map_seq by exact Hj. reflexivity.
Qed.

(** ** Properties of the serial frame decoder *)

(** C1, as the code has it.  On a frame of at least 26 bytes whose valve
    word (the status field shifted right by 16) is below [2^12], the
    decoder returns exactly 21 events: the sensor events of m1, m2, p1, p2,
    p3, p4, t1, t2, t3 in this order, then the valve events of indices 0
    to 11, in order, the event of index [i] being computed from bit [i] of
    the valve word; the status string of the packet is these twelve bits,
    lowest first. *)
Theorem parse_serial_packet_events {conv : data_conversions}
    (data : list byte) (timestamp : Z) (default_open_valves : gset Z) :
  (26 <= length data)%nat ->
  valve_word data < 2 ^ 12 ->
  exists pkt evs,
    parse_serial_packet data timestamp default_open_valves = Ok (pkt, evs)
    /\ length evs = 21%nat
    /\ status pkt = bits_from (valve_word data) 0 12
    /\ evs = (sensor_events timestamp pkt
              ++ map (valve_event timestamp default_open_valves (valve_word data))
                   (seq 0 12))%list.
Proof.
  intros Hlen Hlow. exists (frame_packet data). eexists.
  rewrite (parse_serial_packet_frame _ _ _ Hlen).
  assert (valve_count (valve_word data) = 12%nat) as Hcount
    by (apply valve_count_low; pose proof (valve_word_range data); lia).
  split; [reflexivity|]. cbn [status frame_packet]. rewrite Hcount.
  repeat split; reflexivity.
Qed.

Lemma parse_serial_packet_events_witness :
  exists pkt evs,
    parse_serial_packet (conv:=raw_counts) frame_valve0 77 {[0]} = Ok (pkt, evs)
    /\ length evs = 21%nat
    /\ status pkt = bits_from (valve_word frame_valve0) 0 12
    /\ evs = (sensor_events 77 pkt
              ++ map (valve_event 77 {[0]} (valve_word frame_valve0)) (seq 0 12))%list.
Proof.
  apply (parse_serial_packet_events (conv:=raw_counts) frame_valve0 77 {[0]}).
  - cbn; lia.
  - vm_compute; reflexivity.
Defined.

(** C1 as stated fails: the frame [frame_bit12] has 26 bytes and the valve
    word [0x1000]; the format width 12 is a minimum, the string has 13
    characters and the decoder returns 22 events, the last one for valve
    index 12. *)
Lemma parse_serial_packet_events_counterexample :
  exists pkt evs,
    parse_serial_packet (conv:=raw_counts) frame_bit12 77 ∅ = Ok (pkt, evs)
    /\ length frame_bit12 = 26%nat
    /\ status pkt = "0000000000001"
    /\ length evs = 22%nat
    /\ length evs <> 21%nat
    /\ evs !! 21%nat = Some (header TELEMETRY ACT_STATE, ActuatorStatePacket 77 12 ON).
Proof.
  eexists; eexists. split; [vm_compute; reflexivity|].
  repeat split; try reflexivity. cbn; lia.
Qed.

(** C7.  On every frame of at least 26 bytes the decoder returns one valve
    event for each character of the status string, after the nine sensor
    events.  The event of the character [bit] at position [index] carries
    [index] and the state of the polarity rule: for an index of the
    default-open set, ["0"] gives [ON] and ["1"] gives [OFF]; for any other
    index, ["0"] gives [OFF] and ["1"] gives [ON].  Every character is one
    of the two. *)
Theorem parse_serial_packet_valve_polarity {conv : data_conversions}
    (data : list byte) (timestamp : Z) (default_open_valves : gset Z) :
  (26 <= length data)%nat ->
  exists pkt evs,
    parse_serial_packet data timestamp default_open_valves = Ok (pkt, evs)
    /\ length evs = (9 + String.length (status pkt))%nat
    /\ forall (index : nat) (bit : ascii),
         String.get index (status pkt) = Some bit ->
         exists state,
           evs !! (9 + index)%nat
           = Some (header TELEMETRY ACT_STATE,
                   ActuatorStatePacket timestamp (Z.of_nat index) state)
           /\ (bit = "0"%char \/ bit = "1"%char)
           /\ (Z.of_nat index ∈ default_open_valves ->
               (bit = "0"%char -> state = ON) /\ (bit = "1"%char -> state = OFF))
           /\ (Z.of_nat index ∉ default_open_valves ->
               (bit = "0"%char -> state = OFF) /\ (bit = "1"%char -> state = ON)).
Proof.
  intros Hlen. exists (frame_packet data). eexists.
  rewrite (parse_serial_packet_frame _ _ _ Hlen).
  split; [reflexivity|]. cbn [status frame_packet]. split.
  - rewrite length_app, length_map, length_seq, length_bits_from. reflexivity.
  - intros index bit Hget. apply get_bits_from in Hget as [Hindex ->].
    rewrite lookup_valve_event by exact Hindex.
    unfold valve_event. eexists. split; [reflexivity|].
    cbn [Nat.add]. unfold valve_state, digit.
    destruct (Z.testbit (valve_word data) (Z.of_nat index));
      (split; [tauto|]);
      split; intros Hin;
      [ rewrite bool_decide_eq_true_2 by exact Hin
      | rewrite bool_decide_eq_false_2 by exact Hin
      | rewrite bool_decide_eq_true_2 by exact Hin
      | rewrite bool_decide_eq_false_2 by exact Hin ];
      split; intros Hbit; try reflexivity; discriminate Hbit.
Qed.

Lemma parse_serial_packet_valve_polarity_witness :
  exists pkt evs,
    parse_serial_packet (conv:=raw_counts) frame_valve0 77 {[0]} = Ok (pkt, evs)
    /\ length evs = (9 + String.length (status pkt))%nat
    /\ forall (index : nat) (bit : ascii),
         String.get index (status pkt) = Some bit ->
         exists state,
           evs !! (9 + index)%nat
           = Some (header TELEMETRY ACT_STATE,
                   ActuatorStatePacket 77 (Z.of_nat index) state)
           /\ (bit = "0"%char \/ bit = "1"%char)
           /\ (Z.of_nat index ∈ ({[0]} : gset Z) ->
               (bit = "0"%char -> state = ON) /\ (bit = "1"%char -> state = OFF))
           /\ (Z.of_nat index ∉ ({[0]} : gset Z) ->
               (bit = "0"%char -> state = OFF) /\ (bit = "1"%char -> state = ON)).
Proof.
  apply (parse_serial_packet_valve_polarity (conv:=raw_counts) frame_valve0 77 {[0]}).
  cbn; lia.
Defined.

(** C8, as the code has it.  On a frame whose valve word is 1 (only bit 0
    set), decoded with valve 0 in the default-open set and none of the
    valves 1 to 11 in it, all twelve valve events carry [OFF]: valve 0
    because its bit is 1 under inverted polarity, the others because their
    bit is 0 under direct polarity. *)
Theorem parse_serial_packet_valve0_scenario {conv : data_conversions}
    (data : list byte) (timestamp : Z) (default_open_valves : gset Z) :
  (26 <= length data)%nat ->
  valve_word data = 1 ->
  0 ∈ default_open_valves ->
  (forall i : Z, 1 <= i <= 11 -> i ∉ default_open_valves) ->
  exists pkt evs,
    parse_serial_packet data timestamp default_open_valves = Ok (pkt, evs)
    /\ length evs = 21%nat
    /\ forall index : nat,
         (index < 12)%nat ->
         evs !! (9 + index)%nat
         = Some (header TELEMETRY ACT_STATE,
                 ActuatorStatePacket timestamp (Z.of_nat index) OFF).
Proof.
  intros Hlen Hword Hzero Hothers. exists (frame_packet data). eexists.
  rewrite (parse_serial_packet_frame _ _ _ Hlen), Hword.
  change (valve_count 1) with 12%nat.
  split; [reflexivity|]. split; [reflexivity|].
  intros index Hindex. rewrite lookup_valve_event by exact Hindex.
  unfold valve_event. do 2 f_equal. f_equal.
  destruct index as [|index].
  - rewrite bool_decide_eq_true_2 by exact Hzero. reflexivity.
  - rewrite bool_decide_eq_false_2 by (apply Hothers; lia).
    rewrite Nat2Z.inj_succ, Z.testbit_odd_succ with (a := 0) by lia.
    rewrite Z.bits_0. reflexivity.
Qed.

Lemma parse_serial_packet_valve0_scenario_witness :
  exists pkt evs,
    parse_serial_packet (conv:=raw_counts) frame_valve0 77 {[0]} = Ok (pkt, evs)
    /\ length evs = 21%nat
    /\ forall index : nat,
         (index < 12)%nat ->
         evs !! (9 + index)%nat
         = Some (header TELEMETRY ACT_STATE,
                 ActuatorStatePacket 77 (Z.of_nat index) OFF).
Proof.
  apply (parse_serial_packet_valve0_scenario (conv:=raw_counts) frame_valve0 77 {[0]}).
  - cbn; lia.
  - vm_compute; reflexivity.
  - apply elem_of_singleton. reflexivity.
  - intros i Hi Hin. apply elem_of_singleton in Hin. lia.
Defined.

(** C8 as stated fails: on [frame_valve0] (valve word 1) with the
    default-open set [{0}], the event of valve 1 carries [OFF], not [ON],
    and so does the event of valve 11. *)
Lemma parse_serial_packet_valve0_counterexample :
  exists pkt evs,
    parse_serial_packet (conv:=raw_counts) frame_valve0 77 {[0]} = Ok (pkt, evs)
    /\ valve_word frame_valve0 = 1
    /\ evs !! 9%nat = Some (header TELEMETRY ACT_STATE, ActuatorStatePacket 77 0 OFF)
    /\ evs !! 10%nat = Some (header TELEMETRY ACT_STATE, ActuatorStatePacket 77 1 OFF)
    /\ evs !! 10%nat <> Some (header TELEMETRY ACT_STATE, ActuatorStatePacket 77 1 ON)
    /\ evs !! 20%nat = Some (header TELEMETRY ACT_STATE, ActuatorStatePacket 77 11 OFF).
Proof.
  eexists; eexists. split; [vm_compute; reflexivity|].
  split; [vm_compute; reflexivity|].
  split; [reflexivity|]. split; [reflexivity|]. split; [|reflexivity].
  cbn. discriminate.
Qed.

(** The division of a count by 1000, in the primitive operations of
    binary64: the count is not negative, so it converts as it is, and the
    divisor is the float 1000. *)
Lemma truediv_1000 (z : Z) :
  0 <= z ->
  truediv z 1000 = PrimFloat.div (PrimFloat.of_uint63 (Uint63.of_Z z)) 1000%float.
Proof.
  intros Hz. unfold truediv.
  assert (float_of_int 1000 = 1000%float) as -> by (vm_compute; reflexivity).
  destruct z as [|p|p]; [reflexivity|reflexivity|lia].
Qed.

Lemma u16_at_range (data : list byte) (off : nat) : 0 <= u16_at data off < 2 ^ 16.
Proof.
  unfold u16_at, byte_at.
  pose proof (byte_val_range (nth off data x00)).
  pose proof (byte_val_range (nth (off + 1) data x00)).
  lia.
Qed.

(** C10.  On every frame of at least 26 bytes, the 16-bit field at byte
    offset 4 (the first after the ignored region) is the raw count of m2,
    converted by [loadCell2Conversion], and the field at offset 6 is that
    of m1, divided by 1000; the events come in the order m1 then m2.  The
    pressure and temperature fields go through their own conversions.
    The division is the binary64 division of the count by the float 1000:
    a count of 1500 gives 1.5, a count of 1000 gives 1, a count of 0 gives
    0 and the largest count, 65535, gives the binary64 nearest to 65.535. *)
Theorem parse_serial_packet_mass_fields {conv : data_conversions}
    (data : list byte) (timestamp : Z) (default_open_valves : gset Z) :
  (26 <= length data)%nat ->
  exists pkt evs,
    parse_serial_packet data timestamp default_open_valves = Ok (pkt, evs)
    /\ m2 pkt = loadCell2Conversion (u16_at data 4)
    /\ m1 pkt = truediv (u16_at data 6) 1000
    /\ evs !! 0%nat = Some (header TELEMETRY MASS, MassPacket timestamp (Float (m1 pkt)) 1)
    /\ evs !! 1%nat = Some (header TELEMETRY MASS, MassPacket timestamp (Float (m2 pkt)) 2)
    /\ [p1 pkt; p2 pkt; p3 pkt; p4 pkt]
       = map (fun off => pressureConversion (u16_at data off)) [8; 10; 12; 14]%nat
    /\ t1 pkt = thermistorConversion (u16_at data 16)
    /\ t2 pkt = thermistor2Conversion (u16_at data 18)
    /\ t3 pkt = thermocouple3Conversion (u16_at data 20)
    /\ m1 pkt
       = PrimFloat.div (PrimFloat.of_uint63 (Uint63.of_Z (u16_at data 6))) 1000%float
    /\ (u16_at data 6 = 1500 -> m1 pkt = 1.5%float)
    /\ (u16_at data 6 = 1000 -> m1 pkt = 1%float)
    /\ (u16_at data 6 = 0 -> m1 pkt = 0%float)
    /\ (u16_at data 6 = 65535 -> m1 pkt = 0x1.0623d70a3d70ap+6%float).
Proof.
  intros Hlen. exists (frame_packet data). eexists.
  rewrite (parse_serial_packet_frame _ _ _ Hlen).
  split; [reflexivity|].
  do 8 (split; [reflexivity|]).
  cbn [m1 frame_packet].
  rewrite (truediv_1000 _ (proj1 (u16_at_range data 6))).
  split; [reflexivity|].
  split; [|split; [|split]]; intros ->; vm_compute; reflexivity.
Qed.

Lemma parse_serial_packet_mass_fields_witness :
  exists pkt evs,
    parse_serial_packet (conv:=raw_counts) frame_valve0 77 {[0]} = Ok (pkt, evs)
    /\ m2 pkt = @loadCell2Conversion raw_counts (u16_at frame_valve0 4)
    /\ m1 pkt = truediv (u16_at frame_valve0 6) 1000
    /\ evs !! 0%nat = Some (header TELEMETRY MASS, MassPacket 77 (Float (m1 pkt)) 1)
    /\ evs !! 1%nat = Some (header TELEMETRY MASS, MassPacket 77 (Float (m2 pkt)) 2)
    /\ [p1 pkt; p2 pkt; p3 pkt; p4 pkt]
       = map (fun off => @pressureConversion raw_counts (u16_at frame_valve0 off)) [8; 10; 12; 14]%nat
    /\ t1 pkt = @thermistorConversion raw_counts (u16_at frame_valve0 16)
    /\ t2 pkt = @thermistor2Conversion raw_counts (u16_at frame_valve0 18)
    /\ t3 pkt = @thermocouple3Conversion raw_counts (u16_at frame_valve0 20)
    /\ m1 pkt = PrimFloat.div 1500%float 1000%float
    /\ m1 pkt = 1.5%float
    /\ evs !! 0%nat = Some (header TELEMETRY MASS, MassPacket 77 (Float 1.5%float) 1)
    /\ m2 pkt = 1%float.
Proof.
  destruct (parse_serial_packet_mass_fields (conv:=raw_counts) frame_valve0 77 {[0]})
    as (pkt & evs & Hdec & Hm2 & Hm1 & Hev0 & Hev1 & Hp & Ht1 & Ht2 & Ht3
        & Hdiv & H1500 & _).
  { cbn; lia. }
  exists pkt, evs.
  assert (m1 pkt = 1.5%float) as Hvalue by (apply H1500; reflexivity).
  do 9 (split; [assumption|]).
  split; [rewrite Hdiv; vm_compute; reflexivity|].
  split; [exact Hvalue|].
  split; [rewrite <- Hvalue; exact Hev0|].
  rewrite Hm2. vm_compute. reflexivity.
Defined.

(** ** Further properties of the message decoder *)

Lemma ActuatorState_domain (v : Z) :
  (0 <= v <= 1 -> exists m, Enum_call ActuatorState v = Ok m /\ value m = v)
  /\ (~ 0 <= v <= 1 -> Enum_call ActuatorState v = Raise ValueError).
Proof.
  split.
  - intros Hv. assert (v = 0 \/ v = 1) as [-> | ->] by lia;
      eexists; split; reflexivity.
  - intros Hv. apply Enum_call_raises. intros [] _; cbn; lia.
Qed.

Lemma ArmingState_domain (v : Z) :
  (0 <= v <= 4 -> exists m, Enum_call ArmingState v = Ok m /\ value m = v)
  /\ (~ 0 <= v <= 4 -> Enum_call ArmingState v = Raise ValueError).
Proof.
  split.
  - intros Hv.
    assert (v = 0 \/ v = 1 \/ v = 2 \/ v = 3 \/ v = 4)
      as [-> | [-> | [-> | [-> | ->]]]] by lia;
      eexists; split; reflexivity.
  - intros Hv. apply Enum_call_raises. intros [] _; cbn; lia.
Qed.

Lemma Warning_domain (v : Z) :
  (0 <= v <= 1 -> exists m, Enum_call Warning v = Ok m /\ value m = v)
  /\ (~ 0 <= v <= 1 -> Enum_call Warning v = Raise ValueError).
Proof.
  split.
  - intros Hv. assert (v = 0 \/ v = 1) as [-> | ->] by lia;
      eexists; split; reflexivity.
  - intros Hv. apply Enum_call_raises. intros [] _; cbn; lia.
Qed.

(** X1.  The three telemetry cases with an enumeration byte call the
    enumeration class on it: on a payload of the right length, a byte of
    the domain gives the packet with the member of that value, and any
    other byte raises [ValueError]. *)
Theorem parse_packet_message_state_enums (message_bytes : list byte) :
  (length message_bytes = 6%nat ->
   (0 <= byte_at message_bytes 5 <= 1 ->
    exists st,
      parse_packet_message (header TELEMETRY ACT_STATE) message_bytes
      = Ok (Some (ActuatorStatePacket (u32_at message_bytes 0)
                    (byte_at message_bytes 4) st))
      /\ value st = byte_at message_bytes 5)
   /\ (~ 0 <= byte_at message_bytes 5 <= 1 ->
       parse_packet_message (header TELEMETRY ACT_STATE) message_bytes
       = Raise ValueError))
  /\ (length message_bytes = 5%nat ->
      (0 <= byte_at message_bytes 4 <= 4 ->
       exists st,
         parse_packet_message (header TELEMETRY ARMING_STATE) message_bytes
         = Ok (Some (ArmingStatePacket (u32_at message_bytes 0) st))
         /\ value st = byte_at message_bytes 4)
      /\ (~ 0 <= byte_at message_bytes 4 <= 4 ->
          parse_packet_message (header TELEMETRY ARMING_STATE) message_bytes
          = Raise ValueError)
      /\ (0 <= byte_at message_bytes 4 <= 1 ->
          exists w,
            parse_packet_message (header TELEMETRY WARNING) message_bytes
            = Ok (Some (WarningPacket (u32_at message_bytes 0) w))
            /\ value w = byte_at message_bytes 4)
      /\ (~ 0 <= byte_at message_bytes 4 <= 1 ->
          parse_packet_message (header TELEMETRY WARNING) message_bytes
          = Raise ValueError)).
Proof.
  unfold parse_packet_message; cbn [type sub_type header]. split; intros Hlen.
  - rewrite (unpack_IBB _ Hlen). unfold mbind at 1 3, result_bind at 1 3.
    destruct (ActuatorState_domain (byte_at message_bytes 5)) as [Hin Hout].
    split; intros Hv.
    + destruct (Hin Hv) as (st & -> & Hst). exists st. split; [reflexivity|exact Hst].
    + rewrite (Hout Hv). reflexivity.
  - rewrite (unpack_IB _ Hlen). unfold mbind at 1 3 5 7, result_bind at 1 3 5 7.
    destruct (ArmingState_domain (byte_at message_bytes 4)) as [Hin Hout].
    destruct (Warning_domain (byte_at message_bytes 4)) as [Hin' Hout'].
    split; [|split; [|split]]; intros Hv.
    + destruct (Hin Hv) as (st & -> & Hst). exists st. split; [reflexivity|exact Hst].
    + rewrite (Hout Hv). reflexivity.
    + destruct (Hin' Hv) as (w & -> & Hw). exists w. split; [reflexivity|exact Hw].
    + rewrite (Hout' Hv). reflexivity.
Qed.

Lemma parse_packet_message_state_enums_witness :
  parse_packet_message (header TELEMETRY ACT_STATE) [x0a; x00; x00; x00; x03; x02]
  = Raise ValueError
  /\ parse_packet_message (header TELEMETRY ARMING_STATE) [x0a; x00; x00; x00; x05]
     = Raise ValueError.
Proof.
  split.
  - apply (proj2 (proj1 (parse_packet_message_state_enums
                           [x0a; x00; x00; x00; x03; x02]) eq_refl)).
    vm_compute. intros [_ Hle]. apply Hle. reflexivity.
  - apply (proj1 (proj2 (proj2 (parse_packet_message_state_enums
                                  [x0a; x00; x00; x00; x05]) eq_refl))).
    vm_compute. intros [_ Hle]. apply Hle. reflexivity.
Defined.

(** X2.  A header with a length in the table is decoded only from a payload of
    exactly that length: any other payload raises [struct.error].  An
    [ACT_STATE] payload one byte short is rejected. *)
Theorem parse_packet_message_length (h : PacketHeader) (message_bytes : list byte)
    (n : Z) :
  packet_message_bytes_length h = Ok (Some n) ->
  Z.of_nat (length message_bytes) <> n ->
  parse_packet_message h message_bytes = Raise struct_error.
Proof.
  destruct h as [[] []]; cbn; intros [= <-] Hlen;
    unfold parse_packet_message, struct.unpack; cbn;
    match goal with
    | |- context [Nat.eqb ?a ?b] => destruct (Nat.eqb_spec a b) as [Heq|Hne]
    end; try reflexivity; lia.
Qed.

Lemma parse_packet_message_length_witness :
  parse_packet_message (header TELEMETRY ACT_STATE) [x0a; x00; x00; x00; x03]
  = Raise struct_error.
Proof.
  apply (parse_packet_message_length (header TELEMETRY ACT_STATE)
           [x0a; x00; x00; x00; x03] 6).
  - reflexivity.
  - cbn; lia.
Defined.

(** ** The header decoder, beyond its domain *)

Lemma byte_val_inj (a b : byte) : byte_val a = byte_val b -> a = b.
Proof.
  unfold byte_val. intros Heq. apply N2Z.inj in Heq.
  pose proof (Byte.of_to_N a) as Ha. rewrite Heq, Byte.of_to_N in Ha.
  congruence.
Qed.

Lemma parse_packet_header_values (t s : byte) (h : PacketHeader) :
  parse_packet_header [t; s] = Ok h ->
  value (type h) = byte_val t /\ value (sub_type h) = byte_val s.
Proof.
  rewrite parse_packet_header_unfold.
  destruct (Enum_call PacketType (byte_val t)) as [ty|] eqn:Hty; [|discriminate].
  destruct (Enum_call TelemetryPacketSubType (byte_val s)) as [st|] eqn:Hst;
    [|discriminate].
  intros [= <-]. split; [exact (Enum_call_value _ _ Hty)|exact (Enum_call_value _ _ Hst)].
Qed.

(** X3.  A header buffer that is not exactly two bytes long, the empty one
    included, is rejected with [struct.error] before any code is looked
    at: the length error comes first even when the bytes present are not
    codes of the enumerations. *)
Theorem parse_packet_header_wrong_length (header_bytes : list byte) :
  length header_bytes <> 2%nat ->
  parse_packet_header header_bytes = Raise struct_error.
Proof.
  intros Hlen. unfold parse_packet_header, struct.unpack; cbn.
  destruct (Nat.eqb_spec (length header_bytes) 2) as [Heq|Hne];
    [contradiction|reflexivity].
Qed.

Lemma parse_packet_header_wrong_length_witness :
  parse_packet_header [] = Raise struct_error
  /\ parse_packet_header [x05; x63; x00] = Raise struct_error.
Proof.
  split.
  - apply (parse_packet_header_wrong_length []). cbn; lia.
  - apply (parse_packet_header_wrong_length [x05; x63; x00]). cbn; lia.
Defined.

(** X4.  Every one of the twenty headers is the decoding of exactly one
    pair of bytes: the header decoder is a bijection from the pairs it
    accepts to the headers. *)
Theorem parse_packet_header_bijective (h : PacketHeader) :
  exists t s,
    parse_packet_header [t; s] = Ok h
    /\ forall t' s', parse_packet_header [t'; s'] = Ok h -> t' = t /\ s' = s.
Proof.
  exists (default x00 (Byte.of_N (Z.to_N (value (type h))))),
         (default x00 (Byte.of_N (Z.to_N (value (sub_type h))))).
  assert (parse_packet_header
            [default x00 (Byte.of_N (Z.to_N (value (type h))));
             default x00 (Byte.of_N (Z.to_N (value (sub_type h))))] = Ok h) as Hdec
    by (destruct h as [[] []]; reflexivity).
  split; [exact Hdec|].
  intros t' s' Hdec'.
  apply parse_packet_header_values in Hdec as [Ht Hs].
  apply parse_packet_header_values in Hdec' as [Ht' Hs'].
  split; apply byte_val_inj; congruence.
Qed.

(** ** The message decoder: variants, bounds and lengths *)

Ltac unpack_cases :=
  unfold parse_packet_message, struct.unpack;
  cbn [type sub_type header struct.parse_format struct.codes_of struct.code_of
       Ascii.eqb Bool.eqb];
  cbn -[struct.le_uint firstn skipn length Nat.eqb Enum_call].

(** X5.  Whatever message the decoder returns belongs to the header it was
    given: a [TemperaturePacket] only under [TELEMETRY, TEMPERATURE], an
    [ActuationAcknowledgement] only under [CONTROL, ACT_ACK], and so on for
    each dataclass. *)
Theorem parse_packet_message_variant (h : PacketHeader) (message_bytes : list byte)
    (m : PacketMessage) :
  parse_packet_message h message_bytes = Ok (Some m) -> message_header m = h.
Proof.
  destruct h as [[] []]; unpack_cases; try discriminate;
    destruct (Nat.eqb _ _); cbn -[struct.le_uint firstn skipn Enum_call];
    try discriminate;
    try match goal with
      | |- context [Enum_call ?A ?v] =>
          destruct (Enum_call_total (A:=A) v) as [[e He]|He]; rewrite He;
          cbn -[struct.le_uint firstn skipn]
      end;
    try discriminate; intros [= <-]; reflexivity.
Qed.

Lemma parse_packet_message_variant_witness :
  message_header (ActuatorStatePacket 10 3 ON) = header TELEMETRY ACT_STATE.
Proof.
  apply (parse_packet_message_variant (header TELEMETRY ACT_STATE)
           [x0a; x00; x00; x00; x03; x01]).
  reflexivity.
Defined.

Lemma u32_at_range (bs : list byte) (off : nat) : 0 <= u32_at bs off < 2 ^ 32.
Proof.
  unfold u32_at, byte_at.
  pose proof (byte_val_range (nth off bs x00)).
  pose proof (byte_val_range (nth (off + 1) bs x00)).
  pose proof (byte_val_range (nth (off + 2) bs x00)).
  pose proof (byte_val_range (nth (off + 3) bs x00)).
  lia.
Qed.

Lemma length_9_of_sensor (s : TelemetryPacketSubType) (bs : list byte)
    (m : PacketMessage) :
  In s [TEMPERATURE; PRESSURE; MASS] ->
  parse_packet_message (header TELEMETRY s) bs = Ok (Some m) ->
  length bs = 9%nat.
Proof.
  intros Hs. destruct (Nat.eqb_spec (length bs) 9) as [Heq|Hne]; [intros _; exact Heq|].
  cbn in Hs. destruct Hs as [<- | [<- | [<- | []]]];
    unfold parse_packet_message, struct.unpack; cbn;
    destruct (Nat.eqb_spec (length bs) 9); try contradiction; discriminate.
Qed.

(** X6.  A sensor packet the decoder returns has its time and its reading
    in the range of 32 bits and its channel id in that of a byte, and the
    reading is an [int]. *)
Theorem parse_packet_message_sensor_bounds (s : TelemetryPacketSubType)
    (message_bytes : list byte) (m : PacketMessage) :
  In s [TEMPERATURE; PRESSURE; MASS] ->
  parse_packet_message (header TELEMETRY s) message_bytes = Ok (Some m) ->
  exists time reading id,
    m = match s with
        | TEMPERATURE => TemperaturePacket time (Int reading) id
        | PRESSURE => PressurePacket time (Int reading) id
        | _ => MassPacket time (Int reading) id
        end
    /\ 0 <= time < 2 ^ 32 /\ 0 <= reading < 2 ^ 32 /\ 0 <= id < 2 ^ 8.
Proof.
  intros Hs Hdec. pose proof (length_9_of_sensor _ _ _ Hs Hdec) as Hlen.
  exists (u32_at message_bytes 0), (u32_at message_bytes 4), (byte_at message_bytes 8).
  pose proof (u32_at_range message_bytes 0).
  pose proof (u32_at_range message_bytes 4).
  pose proof (byte_val_range (nth 8 message_bytes x00)).
  unfold byte_at. repeat split; try lia.
  revert Hdec. cbn in Hs. destruct Hs as [<- | [<- | [<- | []]]];
    unfold parse_packet_message; cbn [type sub_type header];
    rewrite (unpack_IIB _ Hlen); intros [= <-]; reflexivity.
Qed.

Lemma parse_packet_message_sensor_bounds_witness :
  exists time reading id,
    PressurePacket 1000 (Int 250) 2 = PressurePacket time (Int reading) id
    /\ 0 <= time < 2 ^ 32 /\ 0 <= reading < 2 ^ 32 /\ 0 <= id < 2 ^ 8.
Proof.
  apply (parse_packet_message_sensor_bounds PRESSURE
           [xe8; x03; x00; x00; xfa; x00; x00; x00; x02]).
  - cbn; tauto.
  - reflexivity.
Defined.

Lemma u32_at_inj (a0 a1 a2 a3 b0 b1 b2 b3 : byte) :
  byte_val a0 + 2 ^ 8 * byte_val a1 + 2 ^ 16 * byte_val a2 + 2 ^ 24 * byte_val a3
  = byte_val b0 + 2 ^ 8 * byte_val b1 + 2 ^ 16 * byte_val b2 + 2 ^ 24 * byte_val b3 ->
  a0 = b0 /\ a1 = b1 /\ a2 = b2 /\ a3 = b3.
Proof.
  intros Heq.
  pose proof (byte_val_range a0). pose proof (byte_val_range a1).
  pose proof (byte_val_range a2). pose proof (byte_val_range a3).
  pose proof (byte_val_range b0). pose proof (byte_val_range b1).
  pose proof (byte_val_range b2). pose proof (byte_val_range b3).
  repeat split; apply byte_val_inj; lia.
Qed.

(** X7.  Decoding a sensor payload loses nothing: two 9-byte payloads that
    decode to the same packet under the same sensor header are the same
    bytes. *)
Theorem parse_packet_message_sensor_injective (s : TelemetryPacketSubType)
    (bs bs' : list byte) :
  In s [TEMPERATURE; PRESSURE; MASS] ->
  length bs = 9%nat ->
  length bs' = 9%nat ->
  parse_packet_message (header TELEMETRY s) bs
  = parse_packet_message (header TELEMETRY s) bs' ->
  bs = bs'.
Proof.
  intros Hs Hlen Hlen'.
  assert (Hfields :
            [u32_at bs 0; u32_at bs 4; byte_at bs 8]
            = [u32_at bs' 0; u32_at bs' 4; byte_at bs' 8] -> bs = bs').
  { exact_length bs Hlen 9. exact_length bs' Hlen' 9.
    unfold u32_at, byte_at; cbn [nth Nat.add]. intros [= Htime Hvalue Hid].
    apply u32_at_inj in Htime as (-> & -> & -> & ->).
    apply u32_at_inj in Hvalue as (-> & -> & -> & ->).
    apply byte_val_inj in Hid as ->. reflexivity. }
  cbn in Hs. destruct Hs as [<- | [<- | [<- | []]]];
    unfold parse_packet_message; cbn [type sub_type header];
    rewrite (unpack_IIB _ Hlen), (unpack_IIB _ Hlen');
    intros [= Htime Hvalue Hid]; apply Hfields; congruence.
Qed.

Lemma parse_packet_message_sensor_injective_witness :
  [xe8; x03; x00; x00; xfa; x00; x00; x00; x02]
  = [xe8; x03; x00; x00; xfa; x00; x00; x00; x02].
Proof.
  apply (parse_packet_message_sensor_injective MASS).
  - cbn; tauto.
  - reflexivity.
  - reflexivity.
  - reflexivity.
Defined.

(** X8.  The control cases that unpack their payload reject a payload of
    any other length than their format with [struct.error]: two bytes for
    [ACT_ACK], one for [ARM_REQ] and [ARM_ACK]. *)
Theorem parse_packet_message_control_length (message_bytes : list byte) :
  (length message_bytes <> 2%nat ->
   parse_packet_message (header CONTROL ACT_ACK) message_bytes = Raise struct_error)
  /\ (length message_bytes <> 1%nat ->
      parse_packet_message (header CONTROL ARM_REQ) message_bytes = Raise struct_error
      /\ parse_packet_message (header CONTROL ARM_ACK) message_bytes
         = Raise struct_error).
Proof.
  split; [intros Hlen|intros Hlen; split];
    unfold parse_packet_message, struct.unpack; cbn;
    match goal with
    | |- context [Nat.eqb ?a ?b] => destruct (Nat.eqb_spec a b)
    end; try contradiction; reflexivity.
Qed.

Lemma parse_packet_message_control_length_witness :
  parse_packet_message (header CONTROL ACT_ACK) [] = Raise struct_error
  /\ parse_packet_message (header CONTROL ARM_REQ) [x01; x02] = Raise struct_error.
Proof.
  split.
  - apply (proj1 (parse_packet_message_control_length [])). cbn; lia.
  - apply (proj2 (parse_packet_message_control_length [x01; x02])). cbn; lia.
Defined.

(** ** The serial frame decoder: frames, counts and configuration *)

Lemma unpack_from_short (data : list byte) :
  (length data < 26)%nat ->
  struct.unpack_from "<HHHHHHHHHI" data 4 = Raise struct_error.
Proof.
  intros Hlen. unfold struct.unpack_from.
  cbn [struct.parse_format struct.codes_of struct.code_of Ascii.eqb Bool.eqb
       struct.calcsize struct.size fold_right Nat.add].
  destruct (Nat.leb_spec 4 (length data)) as [H4|H4]; [|reflexivity].
  destruct (Nat.leb_spec 22 (length data - 4)) as [H22|H22]; [lia|reflexivity].
Qed.

(** X9.  A frame shorter than 26 bytes, the empty one included, is rejected
    with [struct.error] and nothing is returned. *)
Theorem parse_serial_packet_short_frame {conv : data_conversions}
    (data : list byte) (timestamp : Z) (default_open_valves : gset Z) :
  (length data < 26)%nat ->
  parse_serial_packet data timestamp default_open_valves = Raise struct_error.
Proof.
  intros Hlen. unfold parse_serial_packet.
  rewrite (unpack_from_short _ Hlen). reflexivity.
Qed.

Lemma parse_serial_packet_short_frame_witness :
  parse_serial_packet (conv:=raw_counts) [] 0 ∅ = Raise struct_error
  /\ parse_serial_packet (conv:=raw_counts) (firstn 25 frame_valve0) 0 ∅
     = Raise struct_error.
Proof.
  split.
  - apply (parse_serial_packet_short_frame (conv:=raw_counts) [] 0 ∅). cbn; lia.
  - apply (parse_serial_packet_short_frame (conv:=raw_counts)
             (firstn 25 frame_valve0) 0 ∅). cbn; lia.
Defined.

(** X10.  The decoder reads bytes 4 to 25 of the frame and nothing else:
    two frames with the same 22 bytes there give the same result, whatever
    their first four bytes and whatever follows byte 25. *)
Theorem parse_serial_packet_window {conv : data_conversions}
    (pre pre' body rest rest' : list byte) (timestamp : Z)
    (default_open_valves : gset Z) :
  length pre = 4%nat ->
  length pre' = 4%nat ->
  length body = 22%nat ->
  parse_serial_packet (pre ++ body ++ rest)%list timestamp default_open_valves
  = parse_serial_packet (pre' ++ body ++ rest')%list timestamp default_open_valves.
Proof.
  intros Hpre Hpre' Hbody.
  rewrite !parse_serial_packet_frame by (rewrite !length_app; lia).
  exact_length pre Hpre 4. exact_length pre' Hpre' 4.
  do 22 (destruct body as [|? body]; [discriminate Hbody|]).
  destruct body; [clear Hbody|discriminate Hbody].
  reflexivity.
Qed.

Lemma parse_serial_packet_window_witness :
  parse_serial_packet (conv:=raw_counts)
    (firstn 4 frame_valve0 ++ skipn 4 frame_valve0 ++ [])%list 77 {[0]}
  = parse_serial_packet (conv:=raw_counts)
      ([xde; xad; xbe; xef] ++ skipn 4 frame_valve0 ++ [x01; x02; x03])%list 77 {[0]}.
Proof.
  apply (parse_serial_packet_window (conv:=raw_counts)); reflexivity.
Defined.

Lemma bit_length_le (n : Z) (k : nat) :
  0 <= n -> (bit_length n <= k)%nat <-> n < 2 ^ Z.of_nat k.
Proof.
  intros Hn. destruct n as [|p|p]; [|clear Hn|lia].
  - cbn [bit_length]. split; [intros _; apply Z.pow_pos_nonneg; lia|lia].
  - cbn [bit_length]. pose proof (size_nat_bounds p) as [Hlow Hhigh]. split.
    + intros Hle.
      assert (2 ^ Z.of_nat (Pos.size_nat p) <= 2 ^ Z.of_nat k)
        by (apply Z.pow_le_mono_r; lia).
      lia.
    + intros Hlt.
      assert (2 ^ Z.of_nat (Pos.size_nat p) < 2 ^ Z.of_nat (S k)) as Hpow
        by (rewrite Nat2Z.inj_succ, Z.pow_succ_r; lia).
      apply Z.pow_lt_mono_r_iff in Hpow; lia.
Qed.

(** X11.  On every frame of at least 26 bytes the decoder returns 9 sensor
    events and one valve event per binary digit of the valve word, twelve
    at least: between 21 and 25 events in all, and exactly 21 precisely
    when the valve word is below [2^12]. *)
Theorem parse_serial_packet_event_count {conv : data_conversions}
    (data : list byte) (timestamp : Z) (default_open_valves : gset Z) :
  (26 <= length data)%nat ->
  exists pkt evs,
    parse_serial_packet data timestamp default_open_valves = Ok (pkt, evs)
    /\ length evs = (9 + Nat.max 12 (bit_length (valve_word data)))%nat
    /\ (21 <= length evs <= 25)%nat
    /\ (length evs = 21%nat <-> valve_word data < 2 ^ 12).
Proof.
  intros Hlen. exists (frame_packet data). eexists.
  rewrite (parse_serial_packet_frame _ _ _ Hlen). split; [reflexivity|].
  rewrite length_app, length_map, length_seq. cbn [sensor_events length].
  unfold valve_count.
  pose proof (valve_word_range data) as [Hlow Hhigh].
  pose proof (bit_length_le (valve_word data) 16 Hlow) as H16.
  pose proof (bit_length_le (valve_word data) 12 Hlow) as H12.
  change (Z.of_nat 16) with 16 in H16. change (Z.of_nat 12) with 12 in H12.
  split; [reflexivity|]. split; [lia|]. split; intros Hcount; lia.
Qed.

Lemma parse_serial_packet_event_count_witness :
  exists pkt evs,
    parse_serial_packet (conv:=raw_counts) frame_bit12 77 ∅ = Ok (pkt, evs)
    /\ length evs = (9 + Nat.max 12 (bit_length (valve_word frame_bit12)))%nat
    /\ (21 <= length evs <= 25)%nat
    /\ (length evs = 21%nat <-> valve_word frame_bit12 < 2 ^ 12).
Proof.
  apply (parse_serial_packet_event_count (conv:=raw_counts) frame_bit12 77 ∅).
  cbn; lia.
Defined.

(** X12.  Every event of the serial decoder is well formed: its header is
    a [TELEMETRY] header, its message is of the dataclass of that header,
    and it carries the timestamp the caller gave. *)
Theorem parse_serial_packet_events_well_formed {conv : data_conversions}
    (data : list byte) (timestamp : Z) (default_open_valves : gset Z)
    (pkt : SerialDataPacket) (evs : packet_list_t) :
  parse_serial_packet data timestamp default_open_valves = Ok (pkt, evs) ->
  Forall (fun ev => type (fst ev) = TELEMETRY
                    /\ message_header (snd ev) = fst ev
                    /\ time_since_power_of (snd ev) = Some timestamp) evs.
Proof.
  destruct (Nat.le_gt_cases 26 (length data)) as [Hlen|Hlen].
  - rewrite (parse_serial_packet_frame _ _ _ Hlen). intros [= <- <-].
    repeat (constructor; [repeat split|]).
    apply List.Forall_forall. intros ev Hin. apply in_map_iff in Hin as (j & <- & _).
    repeat split.
  - unfold parse_serial_packet. rewrite (unpack_from_short _ Hlen). discriminate.
Qed.

Lemma parse_serial_packet_events_well_formed_witness :
  exists pkt evs,
    parse_serial_packet (conv:=raw_counts) frame_bit12 77 {[0]} = Ok (pkt, evs)
    /\ Forall (fun ev => type (fst ev) = TELEMETRY
                         /\ message_header (snd ev) = fst ev
                         /\ time_since_power_of (snd ev) = Some 77) evs.
Proof.
  eexists; eexists. split; [vm_compute; reflexivity|].
  eapply (parse_serial_packet_events_well_formed (conv:=raw_counts)
            frame_bit12 77 {[0]}).
  vm_compute; reflexivity.
Defined.

(** X13.  The default-open set is configuration of the valves alone.  Two
    sets give the same packet, the same nine sensor events and as many
    events in all; the event of valve [j] is the same under both exactly
    when [j] is in both sets or in neither. *)
Theorem parse_serial_packet_default_open {conv : data_conversions}
    (data : list byte) (timestamp : Z) (open1 open2 : gset Z) :
  (26 <= length data)%nat ->
  exists pkt evs1 evs2,
    parse_serial_packet data timestamp open1 = Ok (pkt, evs1)
    /\ parse_serial_packet data timestamp open2 = Ok (pkt, evs2)
    /\ length evs1 = length evs2
    /\ firstn 9 evs1 = firstn 9 evs2
    /\ forall j : nat,
         (9 + j < length evs1)%nat ->
         (evs1 !! (9 + j)%nat = evs2 !! (9 + j)%nat
          <-> (Z.of_nat j ∈ open1 <-> Z.of_nat j ∈ open2)).
Proof.
  intros Hlen. exists (frame_packet data). eexists. eexists.
  rewrite !(parse_serial_packet_frame _ _ _ Hlen).
  split; [reflexivity|]. split; [reflexivity|].
  split; [rewrite !length_app, !length_map; reflexivity|].
  split; [reflexivity|].
  intros j Hj. rewrite length_app, length_map, length_seq in Hj.
  cbn [sensor_events length] in Hj.
  rewrite !lookup_valve_event by lia.
  unfold valve_event, valve_state.
  destruct (bool_decide_reflect (Z.of_nat j ∈ open1)) as [H1|H1],
           (bool_decide_reflect (Z.of_nat j ∈ open2)) as [H2|H2],
           (Z.testbit (valve_word data) (Z.of_nat j));
    split; intros Heq; try tauto; try discriminate Heq; exfalso; tauto.
Qed.

Lemma parse_serial_packet_default_open_witness :
  exists pkt evs1 evs2,
    parse_serial_packet (conv:=raw_counts) frame_valve0 77 {[0]} = Ok (pkt, evs1)
    /\ parse_serial_packet (conv:=raw_counts) frame_valve0 77 {[0; 3]} = Ok (pkt, evs2)
    /\ length evs1 = length evs2
    /\ firstn 9 evs1 = firstn 9 evs2
    /\ forall j : nat,
         (9 + j < length evs1)%nat ->
         (evs1 !! (9 + j)%nat = evs2 !! (9 + j)%nat
          <-> (Z.of_nat j ∈ ({[0]} : gset Z) <-> Z.of_nat j ∈ ({[0; 3]} : gset Z))).
Proof.
  apply (parse_serial_packet_default_open (conv:=raw_counts) frame_valve0 77
           {[0]} {[0; 3]}).
  cbn; lia.
Defined.

(** ** The socket handler *)

(** X14.  A read of fewer than two bytes, the empty read included, makes
    the handler raise [struct.error]: the header slice is short and nothing
    is printed. *)
Theorem receive_socket_data_short_read (data : list byte) :
  (length data < 2)%nat -> receive_socket_data data = Raise struct_error.
Proof.
  intros Hlen. unfold receive_socket_data, parse_packet_header, struct.unpack; cbn.
  destruct (Nat.eqb_spec (length (firstn 2 data)) 2) as [Heq|Hne]; [|reflexivity].
  rewrite length_firstn in Heq. lia.
Qed.

Lemma receive_socket_data_short_read_witness :
  receive_socket_data [] = Raise struct_error
  /\ receive_socket_data [x01] = Raise struct_error.
Proof.
  split.
  - apply (receive_socket_data_short_read []). cbn; lia.
  - apply (receive_socket_data_short_read [x01]). cbn; lia.
Defined.

Lemma table_length_struct_error (h : PacketHeader) (bs : list byte) (n : Z) :
  packet_message_bytes_length h = Ok (Some n) ->
  parse_packet_message h bs = Raise struct_error <-> Z.of_nat (length bs) <> n.
Proof.
  destruct h as [[] []]; cbn; intros [= <-];
    unfold parse_packet_message, struct.unpack;
    cbn [type sub_type struct.parse_format struct.codes_of struct.code_of
         Ascii.eqb Bool.eqb];
    cbn -[struct.le_uint firstn skipn length Nat.eqb Enum_call];
    match goal with
    | |- context [Nat.eqb ?a ?b] => destruct (Nat.eqb_spec a b) as [Heq|Hne]
    end;
    cbn -[struct.le_uint firstn skipn length Enum_call];
    try match goal with
      | |- context [Enum_call ?A ?v] =>
          destruct (Enum_call_total (A:=A) v) as [[e He]|He]; rewrite He;
          cbn -[struct.le_uint firstn skipn length]
      end;
    (split; [intros Habs; first [discriminate Habs|lia]
            |intros Hlen; first [reflexivity|lia]]).
Qed.

(** X15.  The handler does no framing: the whole read after the two header
    bytes is the payload.  When the header is one the length table covers,
    the handler raises [struct.error] exactly when the read is not two
    bytes plus the length of the table; a read holding two packets is
    rejected. *)
Theorem receive_socket_data_framing (data : list byte) (h : PacketHeader) (n : Z) :
  parse_packet_header (firstn 2 data) = Ok h ->
  packet_message_bytes_length h = Ok (Some n) ->
  receive_socket_data data = Raise struct_error <-> Z.of_nat (length data) <> 2 + n.
Proof.
  intros Hh Htable. unfold receive_socket_data. rewrite Hh.
  unfold mbind at 1, result_bind at 1.
  assert (length data = (2 + length (skipn 2 data))%nat) as Hlen.
  { destruct (Nat.eqb_spec (length (firstn 2 data)) 2) as [Heq|Hne].
    - rewrite length_firstn in Heq. rewrite length_skipn. lia.
    - unfold parse_packet_header, struct.unpack in Hh; cbn in Hh.
      destruct (Nat.eqb_spec (length (firstn 2 data)) 2);
        [contradiction|discriminate]. }
  pose proof (table_length_struct_error h (skipn 2 data) n Htable) as Hiff.
  destruct (parse_packet_message h (skipn 2 data)) as [m|e]; cbn.
  - split; [discriminate|]. intros Hne.
    assert (@Ok (option PacketMessage) m = Raise struct_error) as Habs
      by (apply Hiff; lia).
    discriminate Habs.
  - split.
    + intros [= ->]. assert (Z.of_nat (length (skipn 2 data)) <> n)
        by (apply Hiff; reflexivity). lia.
    + intros Hne. f_equal.
      assert (@Raise (option PacketMessage) e = Raise struct_error) as Heq
        by (apply Hiff; lia).
      congruence.
Qed.

Lemma receive_socket_data_framing_witness :
  receive_socket_data
    ([x01; x00; xe8; x03; x00; x00; xfa; x00; x00; x00; x02]
     ++ [x01; x01; xe8; x03; x00; x00; xfa; x00; x00; x00; x02])%list
  = Raise struct_error.
Proof.
  apply (receive_socket_data_framing _ (header TELEMETRY TEMPERATURE) 9).
  - reflexivity.
  - reflexivity.
  - cbn; lia.
Defined.

(** ** The data handlers *)

(** X16.  [process_data] acts on sensor and valve packets only.  Whatever
    the decoder returns under a [CONTROL] header, and whatever it returns
    under the [ARMING_STATE] and [WARNING] subtypes, is dropped: the
    handler makes no call for it. *)
Theorem process_data_drops (h : PacketHeader) (message_bytes : list byte)
    (m : PacketMessage) (reset_heartbeat : bool) :
  parse_packet_message h message_bytes = Ok (Some m) ->
  type h = CONTROL \/ In (sub_type h) [ARMING_STATE; WARNING] ->
  process_data h m reset_heartbeat = [].
Proof.
  intros Hdec Hdrop. destruct h as [[] st]; cbn in Hdrop.
  - destruct st; try reflexivity; discriminate Hdec.
  - destruct Hdrop as [Habs | [<- | [<- | []]]]; [discriminate Habs| |]; reflexivity.
Qed.

Lemma process_data_drops_witness :
  process_data (header TELEMETRY WARNING) (WarningPacket 10 HIGH_PRESSURE) true = []
  /\ process_data (header CONTROL ACT_ACK) (ActuationAcknowledgement 1 2) true = [].
Proof.
  split.
  - apply (process_data_drops (header TELEMETRY WARNING) [x0a; x00; x00; x00; x00]).
    + reflexivity.
    + cbn; tauto.
  - apply (process_data_drops (header CONTROL ACT_ACK) [x01; x02]).
    + reflexivity.
    + cbn; tauto.
Defined.

Lemma process_all_valves (timestamp : Z) (default_open_valves : gset Z) (n : Z)
    (reset_heartbeat : bool) (l : list nat) :
  process_all (map (valve_event timestamp default_open_valves n) l) reset_heartbeat
  = flat_map
      (fun ev => self_update_act_state (snd ev)
                 :: (if reset_heartbeat then [self_reset_heartbeat_timeout] else []))
      (map (valve_event timestamp default_open_valves n) l).
Proof.
  unfold process_all. induction l as [|j l IH]; [reflexivity|].
  cbn [map flat_map]. rewrite IH. reflexivity.
Qed.

(** X17.  The events of a serial frame, handed to [process_data] in order,
    cause one [plot_point] call for each of the nine sensor events, then,
    for each valve event, one [update_act_state] call followed by a
    heartbeat reset when resets are asked for and by nothing otherwise.
    There are at least twelve valve events, so every frame resets the
    heartbeat. *)
Theorem process_all_serial {conv : data_conversions}
    (data : list byte) (timestamp : Z) (default_open_valves : gset Z)
    (reset_heartbeat : bool) :
  (26 <= length data)%nat ->
  exists pkt evs,
    parse_serial_packet data timestamp default_open_valves = Ok (pkt, evs)
    /\ process_all evs reset_heartbeat
       = (map (fun ev => self_plot_point (fst ev) (snd ev)) (firstn 9 evs)
          ++ flat_map
               (fun ev =>
                  self_update_act_state (snd ev)
                  :: (if reset_heartbeat then [self_reset_heartbeat_timeout] else []))
               (skipn 9 evs))%list
    /\ (12 <= length (skipn 9 evs))%nat.
Proof.
  intros Hlen. exists (frame_packet data). eexists.
  rewrite (parse_serial_packet_frame _ _ _ Hlen). split; [reflexivity|].
  change (skipn 9 (sensor_events timestamp (frame_packet data) ++ ?l)%list) with l.
  change (firstn 9 (sensor_events timestamp (frame_packet data) ++ ?l)%list)
    with (sensor_events timestamp (frame_packet data)).
  split.
  - unfold process_all at 1. rewrite flat_map_app. f_equal.
    apply process_all_valves.
  - rewrite length_map, length_seq. unfold valve_count. lia.
Qed.

Lemma process_all_serial_witness :
  exists pkt evs,
    parse_serial_packet (conv:=raw_counts) frame_valve0 77 {[0]} = Ok (pkt, evs)
    /\ process_all evs true
       = (map (fun ev => self_plot_point (fst ev) (snd ev)) (firstn 9 evs)
          ++ flat_map
               (fun ev => self_update_act_state (snd ev)
                          :: (if true then [self_reset_heartbeat_timeout] else []))
               (skipn 9 evs))%list
    /\ (12 <= length (skipn 9 evs))%nat.
Proof.
  apply (process_all_serial (conv:=raw_counts) frame_valve0 77 {[0]} true).
  cbn; lia.
Defined.

(** X18.  On a message the decoder returned, [update_act_state] runs to its
    end exactly when the header was [TELEMETRY, ACT_STATE]; it then opens
    or closes the valve of the decoded id, once, before it logs.  On a
    message decoded under any other header it raises [AttributeError]
    before making any call. *)
Theorem update_act_state_decoded (h : PacketHeader) (message_bytes : list byte)
    (m : PacketMessage) :
  parse_packet_message h message_bytes = Ok (Some m) ->
  (h = header TELEMETRY ACT_STATE ->
   exists id state logged,
     m = ActuatorStatePacket (u32_at message_bytes 0) id state
     /\ id = byte_at message_bytes 4
     /\ value state = byte_at message_bytes 5
     /\ update_act_state m
        = ((match state with
            | ON => self_turn_on_valve id
            | OFF => self_turn_off_valve id
            end) :: map self_write_to_log logged, Ok tt))
  /\ (h <> header TELEMETRY ACT_STATE ->
      update_act_state m = ([], Raise AttributeError)).
Proof.
  intros Hdec. split.
  - intros ->. revert Hdec. unfold parse_packet_message, struct.unpack.
    cbn [type sub_type header struct.parse_format struct.codes_of struct.code_of
         Ascii.eqb Bool.eqb];
      cbn -[struct.le_uint firstn skipn length Nat.eqb Enum_call].
    destruct (Nat.eqb_spec (length message_bytes) 6) as [Hlen|Hlen]; [|discriminate].
    intros Hdec. pose proof (unpack_IBB _ Hlen) as Hunpack.
    unfold struct.unpack in Hunpack; cbn in Hunpack. rewrite Hlen in Hunpack.
    cbn in Hunpack. injection Hunpack as Htime Hid Hstate.
    revert Hdec. cbn -[Enum_call]. rewrite Htime, Hid, Hstate.
    destruct (Enum_call ActuatorState (byte_at message_bytes 5)) as [st|] eqn:Hst;
      [|discriminate].
    cbn. intros [= <-]. apply Enum_call_value in Hst.
    exists (byte_at message_bytes 4), st.
    destruct (Z.eqb_spec (byte_at message_bytes 4) 0) as [H0|H0];
      [|destruct (Z.eqb_spec (byte_at message_bytes 4) 13) as [H13|H13];
        [|destruct (Z.eqb_spec (byte_at message_bytes 4) 14) as [H14|H14]]].
    + exists ["////////////////////////////"; "Fire Valve: " +:+ format_state (state_actuator st)].
      repeat split; try assumption.
      unfold update_act_state. destruct st; cbn; rewrite H0; reflexivity.
    + exists ["Quick Disconnect: " +:+ format_state (state_actuator st)].
      repeat split; try assumption.
      unfold update_act_state. destruct st; cbn; rewrite H13; reflexivity.
    + exists ["Igniter: " +:+ format_state (state_actuator st); "////////////////////////////"].
      repeat split; try assumption.
      unfold update_act_state. destruct st; cbn; rewrite H14; reflexivity.
    + exists ["XV-" +:+ pretty (byte_at message_bytes 4) +:+ ": "
              +:+ format_state (state_actuator st)].
      repeat split; try assumption.
      unfold update_act_state. destruct st; cbn;
        destruct (Z.eqb_spec (byte_at message_bytes 4) 0); try contradiction;
        destruct (Z.eqb_spec (byte_at message_bytes 4) 13); try contradiction;
        destruct (Z.eqb_spec (byte_at message_bytes 4) 14); try contradiction;
        reflexivity.
  - intros Hne. revert Hdec.
    destruct h as [[] []]; try contradiction; unpack_cases; try discriminate;
      destruct (Nat.eqb _ _); cbn -[struct.le_uint firstn skipn Enum_call];
      try discriminate;
      try match goal with
        | |- context [Enum_call ?A ?v] =>
            destruct (Enum_call_total (A:=A) v) as [[e He]|He]; rewrite He;
            cbn -[struct.le_uint firstn skipn]
        end;
      try discriminate; intros [= <-]; reflexivity.
Qed.

Lemma update_act_state_decoded_witness :
  update_act_state (TemperaturePacket 1000 (Int 250) 2) = ([], Raise AttributeError)
  /\ exists id state logged,
       ActuatorStatePacket 10 3 ON
       = ActuatorStatePacket (u32_at [x0a; x00; x00; x00; x03; x01] 0) id state
       /\ id = byte_at [x0a; x00; x00; x00; x03; x01] 4
       /\ value state = byte_at [x0a; x00; x00; x00; x03; x01] 5
       /\ update_act_state (ActuatorStatePacket 10 3 ON)
          = ((match state with
              | ON => self_turn_on_valve id
              | OFF => self_turn_off_valve id
              end) :: map self_write_to_log logged, Ok tt).
Proof.
  split.
  - apply (proj2 (update_act_state_decoded (header TELEMETRY TEMPERATURE)
                    [xe8; x03; x00; x00; xfa; x00; x00; x00; x02]
                    (TemperaturePacket 1000 (Int 250) 2) eq_refl)).
    discriminate.
  - apply (proj1 (update_act_state_decoded (header TELEMETRY ACT_STATE)
                    [x0a; x00; x00; x00; x03; x01]
                    (ActuatorStatePacket 10 3 ON) eq_refl)).
    reflexivity.
Defined.

Lemma ticks_timeout (n : nat) (t : Z) : fst (ticks n t) = t - Z.of_nat n.
Proof.
  revert t; induction n as [|n IH]; intros t; [cbn; lia|].
  cbn [ticks]. unfold decrease_heartbeat at 1.
  specialize (IH (t - 1)). destruct (ticks n (t - 1)) as [t' calls'].
  cbn [fst] in *. lia.
Qed.

(** X19.  After a heartbeat reset the timeout is 6, whatever it was.  The
    first five timer ticks that follow only take and release the mutex;
    from the sixth on, each tick also reports the lost connection and
    logs for how many seconds the heartbeat has been missing: 1 at the
    sixth tick, one more at each further tick. *)
Theorem heartbeat_after_reset (t0 : Z) (n : nat) :
  fst (ticks n (fst (reset_heartbeat_timeout t0))) = 6 - Z.of_nat n
  /\ ((n < 5)%nat ->
      snd (decrease_heartbeat (fst (ticks n (fst (reset_heartbeat_timeout t0)))))
      = [heartbeat_mutex_lock; heartbeat_mutex_unlock])
  /\ ((5 <= n)%nat ->
      snd (decrease_heartbeat (fst (ticks n (fst (reset_heartbeat_timeout t0)))))
      = [heartbeat_mutex_lock;
         self_update_udp_connection_display CONNECTION_LOST;
         self_write_to_log
           ("Heartbeat not found for " +:+ pretty (Z.of_nat n - 4) +:+ " seconds");
         heartbeat_mutex_unlock]).
Proof.
  rewrite ticks_timeout. cbn [reset_heartbeat_timeout fst].
  split; [reflexivity|]. unfold decrease_heartbeat; cbn [snd]. split; intros Hn.
  - destruct (Z.leb_spec (6 - Z.of_nat n - 1) 0) as [Hle|Hgt]; [lia|reflexivity].
  - destruct (Z.leb_spec (6 - Z.of_nat n - 1) 0) as [Hle|Hgt]; [|lia].
    replace (Z.abs (6 - Z.of_nat n - 1) + 1) with (Z.of_nat n - 4) by lia.
    reflexivity.
Qed.

Lemma heartbeat_after_reset_witness :
  snd (decrease_heartbeat (fst (ticks 2 (fst (reset_heartbeat_timeout (-40))))))
  = [heartbeat_mutex_lock; heartbeat_mutex_unlock]
  /\ snd (decrease_heartbeat (fst (ticks 7 (fst (reset_heartbeat_timeout (-40))))))
     = [heartbeat_mutex_lock;
        self_update_udp_connection_display CONNECTION_LOST;
        self_write_to_log "Heartbeat not found for 3 seconds";
        heartbeat_mutex_unlock].
Proof.
  split.
  - apply (proj1 (proj2 (heartbeat_after_reset (-40) 2))). lia.
  - apply (proj2 (proj2 (heartbeat_after_reset (-40) 7))). lia.
Defined.

Lemma rev_cons (a : ascii) (s : string) :
  String.rev (String a s) = String.rev s +:+ String a "".
Proof.
  change (String a s) with (String a "" +:+ s). rewrite rev_append. reflexivity.
Qed.

Lemma rev_involutive (s : string) : String.rev (String.rev s) = s.
Proof.
  induction s as [|a s IH]; [reflexivity|].
  rewrite rev_cons, rev_append, IH. reflexivity.
Qed.

Lemma logged_update_act_state (t id : Z) (st : ActuatorState) :
  logged (fst (update_act_state (ActuatorStatePacket t id st)))
  = if Z.eqb id 0 then
      ["////////////////////////////";
       "Fire Valve: " +:+ format_state (state_actuator st)]
    else if Z.eqb id 13 then
      ["Quick Disconnect: " +:+ format_state (state_actuator st)]
    else if Z.eqb id 14 then
      ["Igniter: " +:+ format_state (state_actuator st);
       "////////////////////////////"]
    else ["XV-" +:+ pretty id +:+ ": " +:+ format_state (state_actuator st)].
Proof.
  unfold update_act_state.
  destruct st; cbn; destruct (Z.eqb id 0); try reflexivity;
    destruct (Z.eqb id 13); try reflexivity; destruct (Z.eqb id 14); reflexivity.
Qed.

Lemma numbered_line_inj (a b : Z) (s1 s2 : ActuatorState) :
  "XV-" +:+ pretty a +:+ ": " +:+ format_state (state_actuator s1)
  = "XV-" +:+ pretty b +:+ ": " +:+ format_state (state_actuator s2) ->
  a = b /\ s1 = s2.
Proof.
  rewrite !append_cons, !append_nil. intros [= Hline].
  apply (f_equal String.rev) in Hline. rewrite !rev_append in Hline.
  destruct s1, s2; cbn [format_state] in Hline;
    repeat match type of Hline with
      | context [String.rev (String ?c ?s)] =>
          let r := eval vm_compute in (String.rev (String c s)) in
          change (String.rev (String c s)) with r in Hline
      end;
    rewrite ?append_cons, ?append_nil in Hline; try discriminate Hline;
    injection Hline as Hrev;
    (apply (f_equal String.rev) in Hrev; rewrite !rev_involutive in Hrev;
     apply (inj pretty) in Hrev; split; [exact Hrev|reflexivity]).
Qed.

(** X20.  The log names the valve and its state without ambiguity: when
    [update_act_state] writes the same lines for two valve packets, the
    two packets have the same valve id and the same state.  The reserved
    names are for the ids 0, 13 and 14 only, and every other id is logged
    under its number. *)
Theorem update_act_state_log_identifies (t1 t2 id1 id2 : Z) (s1 s2 : ActuatorState) :
  logged (fst (update_act_state (ActuatorStatePacket t1 id1 s1)))
  = logged (fst (update_act_state (ActuatorStatePacket t2 id2 s2))) ->
  id1 = id2 /\ s1 = s2.
Proof.
  rewrite !logged_update_act_state.
  destruct (Z.eqb_spec id1 0) as [->|H10];
    [|destruct (Z.eqb_spec id1 13) as [->|H113];
      [|destruct (Z.eqb_spec id1 14) as [->|H114]]];
    (destruct (Z.eqb_spec id2 0) as [->|H20];
     [|destruct (Z.eqb_spec id2 13) as [->|H213];
       [|destruct (Z.eqb_spec id2 14) as [->|H214]]]);
    try (destruct s1, s2; cbn [format_state]; rewrite ?append_cons, ?append_nil;
         intros Heq; first [discriminate Heq | split; reflexivity]).
  intros Heq. apply (f_equal (hd "")) in Heq. cbn [hd] in Heq.
  exact (numbered_line_inj _ _ _ _ Heq).
Qed.

Lemma update_act_state_log_identifies_witness : 14 = 14 /\ OFF = OFF.
Proof.
  apply (update_act_state_log_identifies 5 900 14 14 OFF OFF). reflexivity.
Defined.

(** ** The length table against the decoder *)

(** X21.  The length table and the decoder agree where the table has an
    entry: the payload of that many zero bytes is decoded under the
    header.  The headers the decoder returns a message for and the table
    has no entry for are [CONTROL] headers. *)
Theorem length_table_coverage (h : PacketHeader) :
  (forall n,
     packet_message_bytes_length h = Ok (Some n) ->
     exists m, parse_packet_message h (repeat x00 (Z.to_nat n)) = Ok (Some m))
  /\ (forall message_bytes m,
        parse_packet_message h message_bytes = Ok (Some m) ->
        packet_message_bytes_length h = Ok None ->
        type h = CONTROL).
Proof.
  split.
  - intros n. destruct h as [[] []]; cbn; intros [= <-]; eexists; reflexivity.
  - intros message_bytes m Hdec. destruct h as [[] []]; cbn; intros Htable;
      try reflexivity; discriminate.
Qed.

Lemma length_table_coverage_witness :
  (exists m, parse_packet_message (header TELEMETRY ACT_STATE)
               (repeat x00 (Z.to_nat 6)) = Ok (Some m))
  /\ type (header CONTROL ACT_ACK) = CONTROL.
Proof.
  split.
  - apply (proj1 (length_table_coverage (header TELEMETRY ACT_STATE)) 6).
    reflexivity.
  - apply (proj2 (length_table_coverage (header CONTROL ACT_ACK))
             [x01; x02] (ActuationAcknowledgement 1 2)); reflexivity.
Defined.

(** ** [plot_point] *)

Section PlotPoint.
Context `{plot_runtime}.

Lemma append_point_frame (plots plots' : gmap string ndarray) (key : string)
    (message : PacketMessage) (reading : PacketMessage -> result pyval)
    (calls : list plot_call) :
  append_point plots key message reading = Done (plots', calls) ->
  dom plots' = dom plots
  /\ (forall k, k <> key -> plots' !! k = plots !! k)
  /\ reading_slot calls = [].
Proof.
  unfold append_point. destruct (plots !! key) as [points|] eqn:Hkey; [|discriminate].
  destruct (getattr_time_since_power message) as [time|]; [|discriminate].
  destruct (reading message) as [value|]; [|discriminate].
  cbn. intros [= <- <-]. split; [|split; [|reflexivity]].
  - rewrite dom_insert_L.
    assert (key ∈ dom plots) as Hin by (apply elem_of_dom; eexists; exact Hkey).
    apply subseteq_union_1_L, singleton_subseteq_l. exact Hin.
  - intros k Hk. apply lookup_insert_ne. congruence.
Qed.

(** X22.  [plot_point] changes the array of one plot at most, the one of
    the subtype and channel id of the message, and neither adds a plot
    nor removes one. *)
Theorem plot_point_isolated (plots plots' : gmap string ndarray)
    (value_labels : gset string) (h : PacketHeader) (m : PacketMessage)
    (calls : list plot_call) :
  plot_point plots value_labels h m = Done (plots', calls) ->
  dom plots' = dom plots
  /\ forall k, plots' !! k <> plots !! k ->
               exists id, getattr_id m = Ok id /\ k = plot_key (sub_type h) id.
Proof.
  unfold plot_point. destruct h as [[] st]; cbn [type sub_type].
  { intros [= <- <-]. split; [reflexivity|]. intros k Hk. contradiction. }
  destruct st; try (intros [= <- <-]; split; [reflexivity|]; intros k Hk; contradiction);
    (destruct (getattr_id m) as [id|]; [|discriminate]);
    cbn [of_result mbind outcome_bind];
    match goal with
    | |- context [append_point ?p ?k ?msg ?rd] =>
        destruct (append_point p k msg rd) as [[plots1 calls1]| |] eqn:Happ;
        [|discriminate|discriminate];
        apply append_point_frame in Happ as (Hdom & Hother & _)
    end;
    cbn [mbind outcome_bind];
    match goal with
    | |- context [of_result ?r] => destruct r; [|discriminate]
    end;
    cbn; intros [= <- <-]; (split; [exact Hdom|]);
    intros k Hk; exists id; (split; [reflexivity|]);
    match goal with
    | |- k = ?key => destruct (decide (k = key)) as [Heq|Hne]; [exact Heq|]
    end;
    exfalso; apply Hk; apply Hother; exact Hne.
Qed.

End PlotPoint.

Lemma plot_point_isolated_witness :
  dom (<["t2" := [(1000, Int 250)]]> two_plots) = dom two_plots
  /\ forall k,
       <["t2" := [(1000, Int 250)]]> two_plots !! k <> two_plots !! k ->
       exists id, getattr_id (TemperaturePacket 1000 (Int 250) 2) = Ok id
                  /\ k = plot_key (sub_type (header TELEMETRY TEMPERATURE)) id.
Proof.
  apply (plot_point_isolated (H:=list_runtime) two_plots _ ∅
           (header TELEMETRY TEMPERATURE) (TemperaturePacket 1000 (Int 250) 2)
           [@data_line_setData list_runtime "t2" [(1000, Int 250)];
            @sensor_changeReading list_runtime 1 "250 °C"]).
  vm_compute. reflexivity.
Defined.

(** X23.  A sensor packet the decoder returned, for a channel that has no
    plot, makes [plot_point] raise [KeyError] on the key of the channel
    (the letter of the subtype followed by the channel id of byte 8), before
    any call is made; when the plot exists, [plot_point] returns, with one
    reading written, to the slot [id - 1] for a temperature, [id + 4] for a
    pressure, and 4 or 9 for a mass as the channel id is 1 or not. *)
Theorem plot_point_decoded {rt : plot_runtime} (plots : gmap string ndarray)
    (value_labels : gset string) (s : TelemetryPacketSubType)
    (message_bytes : list byte) (m : PacketMessage) :
  In s [TEMPERATURE; PRESSURE; MASS] ->
  parse_packet_message (header TELEMETRY s) message_bytes = Ok (Some m) ->
  (plots !! plot_key s (byte_at message_bytes 8) = None ->
   plot_point plots value_labels (header TELEMETRY s) m
   = KeyError (plot_key s (byte_at message_bytes 8)))
  /\ (is_Some (plots !! plot_key s (byte_at message_bytes 8)) ->
      exists plots' calls,
        plot_point plots value_labels (header TELEMETRY s) m = Done (plots', calls)
        /\ reading_slot calls
           = [match s with
              | TEMPERATURE => byte_at message_bytes 8 - 1
              | PRESSURE => byte_at message_bytes 8 + 4
              | _ => if Z.eqb (byte_at message_bytes 8) 1 then 4 else 9
              end]).
Proof.
  intros Hs Hdec. pose proof (length_9_of_sensor _ _ _ Hs Hdec) as Hlen.
  revert Hdec. cbn in Hs. destruct Hs as [<- | [<- | [<- | []]]];
    unfold parse_packet_message; cbn [type sub_type header];
    rewrite (unpack_IIB _ Hlen); intros [= <-];
    unfold plot_point, append_point;
    cbn [type sub_type header getattr_id of_result mbind outcome_bind plot_key];
    (split; [intros ->; reflexivity|]);
    intros [points ->]; cbn; eexists; eexists; (split; [reflexivity|]);
    unfold reading_slot; cbn; try destruct (bool_decide _); reflexivity.
Qed.

Lemma plot_point_decoded_witness :
  plot_point (H:=list_runtime) two_plots ∅ (header TELEMETRY PRESSURE)
    (PressurePacket 1000 (Int 250) 2)
  = KeyError "p2".
Proof.
  apply (proj1 (plot_point_decoded (rt:=list_runtime) two_plots ∅ PRESSURE
                  [xe8; x03; x00; x00; xfa; x00; x00; x00; x02]
                  (PressurePacket 1000 (Int 250) 2)
                  (or_intror (or_introl eq_refl)) eq_refl)).
  vm_compute. reflexivity.
Defined.

Lemma plot_point_channel {rt : plot_runtime} (plots : gmap string ndarray)
    (value_labels : gset string) (s : TelemetryPacketSubType)
    (timestamp : Z) (v : pyval) (id : Z) :
  In s [TEMPERATURE; PRESSURE; MASS] ->
  is_Some (plots !! plot_key s id) ->
  exists plots' calls,
    plot_point plots value_labels (header TELEMETRY s)
      (match s with
       | TEMPERATURE => TemperaturePacket timestamp v id
       | PRESSURE => PressurePacket timestamp v id
       | _ => MassPacket timestamp v id
       end) = Done (plots', calls)
    /\ dom plots' = dom plots
    /\ reading_slot calls
       = [match s with
          | TEMPERATURE => id - 1
          | PRESSURE => id + 4
          | _ => if Z.eqb id 1 then 4 else 9
          end].
Proof.
  intros Hs [points Hpoints]. cbn in Hs.
  destruct Hs as [<- | [<- | [<- | []]]];
    unfold plot_point, append_point;
    cbn [type sub_type header getattr_id of_result mbind outcome_bind plot_key]
      in *;
    rewrite Hpoints; cbn; eexists; eexists; (split; [reflexivity|]);
    (split;
     [rewrite dom_insert_L;
      apply subseteq_union_1_L, singleton_subseteq_l, elem_of_dom;
      eexists; exact Hpoints
     |unfold reading_slot; cbn; try destruct (bool_decide _); reflexivity]).
Qed.

(** X24.  The nine sensor events of a serial frame go to nine different
    readings: handed to [plot_point] with their plot present, the events
    m1, m2, p1, p2, p3, p4, t1, t2, t3 write the slots 4, 9, 5, 6, 7, 8, 0,
    1, 2, each under its own key. *)
Theorem plot_point_serial_slots {conv : data_conversions} {rt : plot_runtime}
    (data : list byte) (timestamp : Z) (default_open_valves : gset Z) :
  (26 <= length data)%nat ->
  exists pkt evs,
    parse_serial_packet data timestamp default_open_valves = Ok (pkt, evs)
    /\ Forall2
         (fun ev channel =>
            forall (plots : gmap string ndarray) (value_labels : gset string),
              is_Some (plots !! fst channel) ->
              exists plots' calls,
                plot_point plots value_labels (fst ev) (snd ev) = Done (plots', calls)
                /\ dom plots' = dom plots
                /\ reading_slot calls = [snd channel])
         (firstn 9 evs)
         [("m1", 4); ("m2", 9); ("p1", 5); ("p2", 6); ("p3", 7); ("p4", 8);
          ("t1", 0); ("t2", 1); ("t3", 2)]
    /\ NoDup [4; 9; 5; 6; 7; 8; 0; 1; 2].
Proof.
  intros Hlen. exists (frame_packet data). eexists.
  rewrite (parse_serial_packet_frame _ _ _ Hlen). split; [reflexivity|].
  change (firstn 9 (sensor_events timestamp (frame_packet data) ++ ?l)%list)
    with (sensor_events timestamp (frame_packet data)).
  split.
  - unfold sensor_events.
    repeat first
      [ apply List.Forall2_nil
      | apply List.Forall2_cons;
        [ intros plots value_labels Hplot; cbn [fst snd] in *;
          match goal with
          | |- context [plot_point _ _ (header TELEMETRY ?s) (MassPacket _ ?v ?id)] =>
              exact (plot_point_channel plots value_labels s timestamp v id
                       ltac:(cbn; tauto) Hplot)
          | |- context [plot_point _ _ (header TELEMETRY ?s) (PressurePacket _ ?v ?id)] =>
              exact (plot_point_channel plots value_labels s timestamp v id
                       ltac:(cbn; tauto) Hplot)
          | |- context [plot_point _ _ (header TELEMETRY ?s)
                          (TemperaturePacket _ ?v ?id)] =>
              exact (plot_point_channel plots value_labels s timestamp v id
                       ltac:(cbn; tauto) Hplot)
          end
        | ] ].
  - apply (bool_decide_unpack _). vm_compute. exact I.
Qed.

Lemma plot_point_serial_slots_witness :
  exists pkt evs,
    parse_serial_packet (conv:=raw_counts) frame_valve0 77 {[0]} = Ok (pkt, evs)
    /\ Forall2
         (fun ev channel =>
            forall (plots : gmap string (list (Z * pyval))) (value_labels : gset string),
              is_Some (plots !! fst channel) ->
              exists plots' calls,
                plot_point (H:=list_runtime) plots value_labels (fst ev) (snd ev)
                = Done (plots', calls)
                /\ dom plots' = dom plots
                /\ reading_slot calls = [snd channel])
         (firstn 9 evs)
         [("m1", 4); ("m2", 9); ("p1", 5); ("p2", 6); ("p3", 7); ("p4", 8);
          ("t1", 0); ("t2", 1); ("t3", 2)]
    /\ NoDup [4; 9; 5; 6; 7; 8; 0; 1; 2].
Proof.
  apply (plot_point_serial_slots (conv:=raw_counts) (rt:=list_runtime)
           frame_valve0 77 {[0]}).
  cbn; lia.
Defined.
